(** * page-title-fetcher: a shallow embedding of [getTitlesFromUrls.js]

    The script reads a sitemap from a URL, extracts the page URLs, fetches
    every page, takes its title and writes the (title, url) pairs to a CSV
    file.  The embedding follows the source function by function:
    [fetchSitemapXml], [parseSitemapXml], [getPageTitle], [processUrls] and
    the top-level driver [main].

    What lies outside the script is kept outside the model and enters as
    section variables: the network with axios on top of it ([axios.get]),
    the XML tokenizer behind [xml2js] and [cheerio.load].  What the script
    relies on from these libraries beyond that (how xml2js shapes its result
    object, what cheerio's [text()] returns for a selection) is written out,
    since the claims depend on it.

    A JavaScript string is represented by its UTF-8 encoding, which is what a
    Rocq string literal holds. *)

From Stdlib Require Import String Ascii List Bool Arith Lia DecimalString.
From Stdlib Require DecimalNat.
Import ListNotations.
Open Scope string_scope.
Set Warnings "-register-all".

(** ** Strings *)

Module JsString.

Fixpoint of_bytes (codes : list nat) : string :=
  match codes with
  | [] => EmptyString
  | n :: rest => String (ascii_of_nat n) (of_bytes rest)
  end.

(** ECMAScript's [WhiteSpace] and [LineTerminator] characters, each by its
    UTF-8 encoding: TAB, LF, VT, FF, CR, SPACE, U+00A0, U+1680, U+2000 to
    U+200A, U+2028, U+2029, U+202F, U+205F, U+3000 and U+FEFF.  This is the
    class [\s] of a regular expression and the one [String.prototype.trim]
    strips. *)
Definition white_space : list string :=
  Eval cbv in
    List.map of_bytes
      [[9]; [10]; [11]; [12]; [13]; [32];
       [194; 160];
       [225; 154; 128];
       [226; 128; 128]; [226; 128; 129]; [226; 128; 130]; [226; 128; 131];
       [226; 128; 132]; [226; 128; 133]; [226; 128; 134]; [226; 128; 135];
       [226; 128; 136]; [226; 128; 137]; [226; 128; 138];
       [226; 128; 168]; [226; 128; 169]; [226; 128; 175];
       [226; 129; 159];
       [227; 128; 128];
       [239; 187; 191]].

(** What follows the prefix [p] in [s], when [s] starts with [p]. *)
Fixpoint after_prefix (p s : string) : option string :=
  match p with
  | EmptyString => Some s
  | String a p' =>
      match s with
      | String b s' => if Ascii.eqb a b then after_prefix p' s' else None
      | EmptyString => None
      end
  end.

Fixpoint after_any (ps : list string) (s : string) : option string :=
  match ps with
  | [] => None
  | p :: rest =>
      match after_prefix p s with
      | Some r => Some r
      | None => after_any rest s
      end
  end.

(** What follows the first character of [s], when it is whitespace. *)
Definition after_space (s : string) : option string :=
  after_any white_space s.

(** Leading whitespace is dropped one character at a time; [fuel] bounds
    the number of characters, and the length of the string is enough. *)
Fixpoint trimStart_fuel (fuel : nat) (s : string) : string :=
  match fuel with
  | O => s
  | S k =>
      match after_space s with
      | Some r => trimStart_fuel k r
      | None => s
      end
  end.

Definition trimStart (s : string) : string :=
  trimStart_fuel (String.length s) s.

Definition is_white_space (s : string) : bool :=
  existsb (String.eqb s) white_space.

(** Trailing whitespace is dropped from the end towards the start: once what
    follows a byte has been trimmed, the byte starts a trailing whitespace
    character exactly when it and what is left make up one. *)
Fixpoint trimEnd (s : string) : string :=
  match s with
  | EmptyString => EmptyString
  | String c r =>
      let t := String c (trimEnd r) in
      if is_white_space t then EmptyString else t
  end.

(** [s.trim()] *)
Definition trim (s : string) : string := trimEnd (trimStart s).

(** [s.match(/^\s*$/)] as a boolean *)
Definition blank (s : string) : bool :=
  match trimStart s with
  | EmptyString => true
  | String _ _ => false
  end.

(** JavaScript truthiness of a string: every string but the empty one. *)
Definition nonempty (s : string) : bool :=
  match s with
  | EmptyString => false
  | String _ _ => true
  end.

(** [n.toString()] for a non-negative integer. *)
Definition of_nat (n : nat) : string :=
  NilEmpty.string_of_uint (Nat.to_uint n).

Fixpoint repeat_char (c : ascii) (n : nat) : string :=
  match n with
  | O => EmptyString
  | S k => String c (repeat_char c k)
  end.

(** [s.padStart(width, c)] for a one-character filler and a string of
    ASCII characters. *)
Definition padStart (width : nat) (c : ascii) (s : string) : string :=
  repeat_char c (width - String.length s) ++ s.

End JsString.

(** ** JavaScript values and exceptions *)

(** The values that flow through the script: what axios hands back as
    [response.data] (the body text, or the value of a body that parses as
    JSON), what [xml2js] builds and what the script reads out of it.  A
    number is kept by the text [String] gives for it, which is all the
    script can make of one.  An object is an association list; the keys of
    an object are distinct and the script never depends on their order. *)
Inductive jsval : Type :=
| JUndefined
| JNull
| JBool (b : bool)
| JNum (text : string)
| JStr (s : string)
| JArr (items : list jsval)
| JObj (props : list (string * jsval)).

(** The outcome of an expression that may throw; [Throw] carries
    [error.message]. *)
Inductive result (A : Type) : Type :=
| Ok (a : A)
| Throw (message : string).
Arguments Ok {A} a.
Arguments Throw {A} message.

Definition rbind {A B} (r : result A) (k : A -> result B) : result B :=
  match r with
  | Ok a => k a
  | Throw m => Throw m
  end.

Notation "x <-! r ;; k" := (rbind r (fun x => k))
  (at level 61, r at next level, right associativity).

Module Js.

Fixpoint lookup (key : string) (props : list (string * jsval)) : option jsval :=
  match props with
  | [] => None
  | (k, v) :: rest => if String.eqb k key then Some v else lookup key rest
  end.

(** JavaScript truthiness: [undefined], [null], [false], zero and the empty
    string are falsy. *)
Definition truthy (v : jsval) : bool :=
  match v with
  | JUndefined | JNull => false
  | JBool b => b
  | JNum text => negb (String.eqb text "0")
  | JStr s => JsString.nonempty s
  | JArr _ | JObj _ => true
  end.

(** [v.key] for a name that no prototype defines (the script reads
    [urlset], [url], [loc] and [map] only).  Reading a property of
    [undefined] or [null] throws a [TypeError]; a primitive or an array has
    no such property, so the read gives [undefined]. *)
Definition get (v : jsval) (key : string) : result jsval :=
  match v with
  | JUndefined =>
      Throw ("Cannot read properties of undefined (reading '" ++ key ++ "')")
  | JNull =>
      Throw ("Cannot read properties of null (reading '" ++ key ++ "')")
  | JBool _ | JNum _ | JStr _ | JArr _ => Ok JUndefined
  | JObj props =>
      match lookup key props with
      | Some x => Ok x
      | None => Ok JUndefined
      end
  end.

(** [v[0]]; of a string it is the first character, here for a string of
    ASCII characters. *)
Definition get0 (v : jsval) : result jsval :=
  match v with
  | JUndefined => Throw "Cannot read properties of undefined (reading '0')"
  | JNull => Throw "Cannot read properties of null (reading '0')"
  | JBool _ | JNum _ => Ok JUndefined
  | JStr EmptyString => Ok JUndefined
  | JStr (String c _) => Ok (JStr (String c EmptyString))
  | JArr [] => Ok JUndefined
  | JArr (x :: _) => Ok x
  | JObj props =>
      match lookup "0" props with
      | Some x => Ok x
      | None => Ok JUndefined
      end
  end.

(** The callback is applied from left to right; the first exception leaves
    the loop. *)
Fixpoint map_items (f : jsval -> result jsval) (items : list jsval)
  : result (list jsval) :=
  match items with
  | [] => Ok []
  | x :: rest =>
      y <-! f x ;;
      ys <-! map_items f rest ;;
      Ok (y :: ys)
  end.

(** [v.map(f)]: reading [map] off [undefined] or [null] throws; only an
    array has the method. *)
Definition map (v : jsval) (f : jsval -> result jsval) : result (list jsval) :=
  match v with
  | JUndefined => Throw "Cannot read properties of undefined (reading 'map')"
  | JNull => Throw "Cannot read properties of null (reading 'map')"
  | JArr items => map_items f items
  | JBool _ | JNum _ | JStr _ | JObj _ =>
      Throw "parsedData.urlset.url.map is not a function"
  end.

(** [String(v)], as a template literal applies it to a URL value: a string
    or an object that xml2js built. *)
Fixpoint to_string (v : jsval) : string :=
  match v with
  | JUndefined => "undefined"
  | JNull => "null"
  | JBool true => "true"
  | JBool false => "false"
  | JNum text => text
  | JStr s => s
  | JArr items =>
      String.concat ","
        (List.map (fun x => match x with
                            | JUndefined | JNull => ""
                            | _ => to_string x
                            end) items)
  | JObj _ => "[object Object]"
  end.

(** The conversion of a value to a string where it can fail: an object
    that JSON gave an own property [toString] (which is no function) cannot
    be converted.  An array joins the strings of its elements, [null] and
    [undefined] counting as empty. *)
Fixpoint string_of (v : jsval) : result string :=
  match v with
  | JArr items =>
      (fix join (xs : list jsval) : result string :=
         match xs with
         | [] => Ok ""
         | x :: rest =>
             s <-! match x with
                   | JUndefined | JNull => Ok ""
                   | _ => string_of x
                   end ;;
             match rest with
             | [] => Ok s
             | _ :: _ => t <-! join rest ;; Ok (s ++ "," ++ t)
             end
         end) items
  | JObj props =>
      match lookup "toString" props with
      | Some _ => Throw "Cannot convert object to primitive value"
      | None => Ok "[object Object]"
      end
  | _ => Ok (to_string v)
  end.

(** [v.toString()], the method call. *)
Definition toString (v : jsval) : result string :=
  match v with
  | JUndefined => Throw "Cannot read properties of undefined (reading 'toString')"
  | JNull => Throw "Cannot read properties of null (reading 'toString')"
  | JObj props =>
      match lookup "toString" props with
      | Some _ => Throw "str.toString is not a function"
      | None => Ok "[object Object]"
      end
  | _ => string_of v
  end.

End Js.

(** ** What the process does to the outside, in the order it does it *)

Inductive event : Type :=
| Request (url : jsval)             (* axios.get(url) is issued *)
| Stderr (line : string)            (* console.error *)
| Stdout (line : string)            (* console.log *)
| Mkdir (dir : string)              (* fs.mkdirSync created the directory *)
| CsvFile (path : string) (header : list string) (rows : list (list jsval)).
                                    (* the CSV writer wrote the file *)

(** ** xml2js *)

(** A parsed XML document, as the tokenizer reports it: character data
    (entities already decoded), CDATA sections and elements with their
    attributes and children in document order. *)
Inductive xml : Type :=
| XText (s : string)
| XCData (s : string)
| XElem (name : string) (attrs : list (string * string)) (children : list xml).

Module Xml2js.

(** Parser options are the defaults: [explicitArray], [explicitRoot],
    attributes under [$], character data under [_], no trimming, and
    [emptyTag] the empty string. *)
Definition attrkey : string := "$".
Definition charkey : string := "_".

Fixpoint set_prop (key : string) (v : jsval) (obj : list (string * jsval))
  : list (string * jsval) :=
  match obj with
  | [] => [(key, v)]
  | (k, old) :: rest =>
      if String.eqb k key then (k, v) :: rest
      else (k, old) :: set_prop key v rest
  end.

(** [assignOrPush]: the first child of a name starts an array, a later one
    is pushed onto it. *)
Definition assignOrPush (obj : list (string * jsval)) (key : string)
           (newValue : jsval) : list (string * jsval) :=
  match Js.lookup key obj with
  | None => set_prop key (JArr [newValue]) obj
  | Some (JArr items) => set_prop key (JArr (items ++ [newValue])%list) obj
  | Some old => set_prop key (JArr [old; newValue]) obj
  end.

(** [ontext] and [oncdata]: the character data directly inside an element,
    concatenated. *)
Fixpoint char_data (children : list xml) : string :=
  match children with
  | [] => ""
  | XText s :: rest => s ++ char_data rest
  | XCData s :: rest => s ++ char_data rest
  | XElem _ _ _ :: rest => char_data rest
  end.

Fixpoint has_cdata (children : list xml) : bool :=
  match children with
  | [] => false
  | XCData _ :: _ => true
  | _ :: rest => has_cdata rest
  end.

(** [onopentag]: the attributes, if there are any, go under [$]. *)
Definition open_tag (attrs : list (string * string)) : list (string * jsval) :=
  match attrs with
  | [] => []
  | _ :: _ => [(attrkey, JObj (List.map (fun kv => (fst kv, JStr (snd kv))) attrs))]
  end.

(** [onclosetag]: [obj] holds the attributes and the children (the key
    [#name] already deleted), [chars] is what was collected under [_].
    Blank character data is dropped, unless it came from a CDATA section;
    an element with character data only becomes that string; an element
    left with no key at all becomes the blank text it held ([emptyTag]). *)
Definition close_tag (obj : list (string * jsval)) (chars : string)
           (cdata : bool) : jsval :=
  if JsString.blank chars && negb cdata then
    match obj with
    | [] => JStr chars
    | _ :: _ => JObj obj
    end
  else
    match obj with
    | [] => JStr chars
    | _ :: _ => JObj ((charkey, JStr chars) :: obj)
    end.

(** Names xml2js cannot take as plain child keys: [_] and [cdata] are the
    keys under which it keeps an element's character data and CDATA flag
    while it reads the element, the others are members of
    [Object.prototype], which its test [key in obj] finds on a fresh
    object. *)
Definition reserved_names : list string :=
  [charkey; "cdata"; "constructor"; "toString"; "toLocaleString"; "valueOf";
   "hasOwnProperty"; "isPrototypeOf"; "propertyIsEnumerable"; "__proto__";
   "__defineGetter__"; "__defineSetter__"; "__lookupGetter__";
   "__lookupSetter__"].

(** The scope of this model: documents in which no element has a reserved
    name.  No sitemap has such an element. *)
Fixpoint plain (x : xml) : bool :=
  match x with
  | XElem name _ children =>
      negb (existsb (String.eqb name) reserved_names) && forallb plain children
  | _ => true
  end.

(** The value xml2js builds for an element.  Child elements are folded in
    document order with [assignOrPush]. *)
Fixpoint convert (x : xml) : jsval :=
  match x with
  | XText s => JStr s
  | XCData s => JStr s
  | XElem _ attrs children =>
      let kids :=
        (fix go (cs : list xml) (obj : list (string * jsval)) :=
           match cs with
           | [] => obj
           | (XElem n _ _) as e :: rest => go rest (assignOrPush obj n (convert e))
           | _ :: rest => go rest obj
           end) children (open_tag attrs) in
      close_tag kids (char_data children) (has_cdata children)
  end.

(** The same fold, named, for stating lemmas. *)
Fixpoint add_children (cs : list xml) (obj : list (string * jsval))
  : list (string * jsval) :=
  match cs with
  | [] => obj
  | (XElem n _ _) as e :: rest => add_children rest (assignOrPush obj n (convert e))
  | _ :: rest => add_children rest obj
  end.

Section Parser.
(** What xml2js gets from the tokenizer (sax, strict mode) when it hands it
    the text, a leading byte order mark stripped: the root element of a
    well-formed document, or the message of the error raised. *)
Variable sax : string -> result xml.

(** [xml2js.parseStringPromise(str)]: the argument is turned into a string
    with [str.toString()]; blank text resolves to [null]; an exception or a
    tokenizer error rejects; otherwise the root's value is wrapped under
    the root's name ([explicitRoot]). *)
Definition parseStringPromise (str : jsval) : result jsval :=
  text <-! Js.toString str ;;
  match JsString.trim text with
  | EmptyString => Ok JNull
  | _ =>
      root <-! sax text ;;
      match root with
      | XElem name _ _ => Ok (JObj [(name, convert root)])
      | _ => Throw "Non-whitespace before first tag."
      end
  end.
End Parser.

End Xml2js.

(** ** The sitemap parser *)

Section SitemapParser.
Variable sax : string -> result xml.

(** The body of the [try] block of [parseSitemapXml]:
    [parsedData.urlset.url.map(url => url.loc[0])]. *)
Definition parseSitemapXml_try (xmlContent : jsval) : result (list jsval) :=
  parsedData <-! Xml2js.parseStringPromise sax xmlContent ;;
  urlset <-! Js.get parsedData "urlset" ;;
  url <-! Js.get urlset "url" ;;
  Js.map url (fun url => loc <-! Js.get url "loc" ;; Js.get0 loc).

(** [parseSitemapXml]: the URL array, or [null] ([None]) with one line on
    standard error when anything in the [try] block threw. *)
Definition parseSitemapXml (xmlContent : jsval)
  : option (list jsval) * list event :=
  match parseSitemapXml_try xmlContent with
  | Ok urlArray => (Some urlArray, [])
  | Throw message =>
      (None, [Stderr ("Error parsing sitemap.xml content: " ++ message)])
  end.
End SitemapParser.

(** ** cheerio *)

(** A parsed HTML document, as [cheerio.load] builds it. *)
Inductive node : Type :=
| NText (data : string)
| NComment (data : string)
| NElem (tag : string) (children : list node).

Module Cheerio.

(** The elements named [tag] in the subtree of [n], [n] included, in
    document order: what the selector [$(tag)] matches below [n]. *)
Fixpoint select (tag : string) (n : node) : list node :=
  match n with
  | NElem t children =>
      ((if String.eqb t tag then [n] else []) ++ flat_map (select tag) children)%list
  | _ => []
  end.

(** [$(tag)] on a loaded document. *)
Definition query (tag : string) (document : list node) : list node :=
  flat_map (select tag) document.

(** The text of a node with its descendants; a comment has none. *)
Fixpoint textContent (n : node) : string :=
  match n with
  | NText data => data
  | NComment _ => ""
  | NElem _ children => String.concat "" (List.map textContent children)
  end.

(** [.text()] on a selection: the combined text of every matched element;
    the empty string for an empty selection. *)
Definition text (selection : list node) : string :=
  String.concat "" (List.map textContent selection).

End Cheerio.

(** ** The script *)

(** What [await axios.get(url)] does: it resolves with a response, of which
    the script reads [data], or it rejects (network error, status outside
    2xx, timeout) with an error carrying a message.  [data] is the body
    text, unless the body parses as JSON: axios then hands over the decoded
    value, which can be [null], a boolean, a number, a string, an array or
    an object. *)
Inductive response : Type :=
| Data (data : jsval)
| Rejected (message : string).

(** [{ url, pageTitle }] *)
Record TitleRecord : Type := mkTitle { url : jsval; pageTitle : string }.

(** [new Date()], read through [getFullYear], [getMonth] (from 0),
    [getDate], [getHours] and [getMinutes]. *)
Record Date : Type := mkDate {
  fullYear : nat; month : nat; date : nat; hours : nat; minutes : nat
}.

(** The process environment apart from the network.  An error of the file
    system is kept by the text [console.error] prints for it: name and
    message, stack and fields, as [util.inspect] shows an [Error]. *)
Record Env : Type := mkEnv {
  argv2 : option string;            (* process.argv[2]; None is undefined *)
  dirname : string;                 (* __dirname *)
  now : Date;
  output_dir_exists : bool;         (* fs.existsSync(outputDir) *)
  mkdir_error : option string;      (* Some e: fs.mkdirSync throws e *)
  write_error : option string       (* Some e: writeRecords rejects with e *)
}.

(** JavaScript truthiness of a value that is a string, [null] or
    [undefined]. *)
Definition truthy (v : option string) : bool :=
  match v with
  | Some s => JsString.nonempty s
  | None => false
  end.

Definition string_of (v : option string) : string :=
  match v with
  | Some s => s
  | None => ""
  end.

Module Csv.

(** The [header] option given to [createObjectCsvWriter]: field id and
    column title, in column order. *)
Definition header : list (string * string) :=
  [("pageTitle", "Page Title"); ("url", "URL")].

Definition field (r : TitleRecord) (id : string) : jsval :=
  if String.eqb id "pageTitle" then JStr (pageTitle r)
  else if String.eqb id "url" then url r
  else JUndefined.

Definition titles : list string := List.map snd header.

(** One row per record, its fields in the order of the header's ids. *)
Definition rows (records : list TitleRecord) : list (list jsval) :=
  List.map (fun r => List.map (fun h => field r (fst h)) header) records.

End Csv.

Section Script.
(** The state of the outside network, and one GET against it. *)
Variable Net : Type.
Variable axios_get : jsval -> Net -> response * Net.
Variable sax : string -> result xml.
(** [cheerio.load(content)]: the document, or the message of the error it
    throws, which it can for content that is no text. *)
Variable cheerio_load : jsval -> result (list node).
Variable path_join : string -> string -> string.

(** An asynchronous computation of the script: it runs against the network
    and yields a value and the events it caused, in order. *)
Definition M (A : Type) : Type := Net -> A * list event * Net.

Definition ret {A} (a : A) : M A := fun n => (a, [], n).

Definition bind {A B} (m : M A) (k : A -> M B) : M B :=
  fun n =>
    let '(a, evs1, n1) := m n in
    let '(b, evs2, n2) := k a n1 in
    (b, (evs1 ++ evs2)%list, n2).

Definition emit (e : event) : M unit := fun n => (tt, [e], n).

Definition emit_all (evs : list event) : M unit := fun n => (tt, evs, n).

Definition get (u : jsval) : M response :=
  fun n => let (r, n1) := axios_get u n in (r, [Request u], n1).

Notation "x <- m ;; k" := (bind m (fun x => k))
  (at level 61, m at next level, right associativity).
Notation "m ;;; k" := (bind m (fun _ => k))
  (at level 61, right associativity).

(** [fetchSitemapXml]: [response.data], or [null] with one line on standard
    error. *)
Definition fetchSitemapXml (url : string) : M jsval :=
  response <- get (JStr url) ;;
  match response with
  | Data data => ret data
  | Rejected message =>
      emit (Stderr ("Error fetching sitemap.xml from " ++ url ++ ": " ++ message)) ;;;
      ret JNull
  end.

(** What the [try] block of [getPageTitle] makes of the answer to its
    request: [$('title').text().trim()] on the loaded data, or the message
    of what was thrown on the way. *)
Definition getPageTitle_try (r : response) : result string :=
  match r with
  | Data data =>
      dom <-! cheerio_load data ;;
      Ok (JsString.trim (Cheerio.text (Cheerio.query "title" dom)))
  | Rejected message => Throw message
  end.

Definition getPageTitle (url : jsval) : M (option string) :=
  response <- get url ;;
  match getPageTitle_try response with
  | Ok pageTitle => ret (Some pageTitle)
  | Throw message =>
      emit (Stderr ("Error fetching page title from " ++ Js.to_string url
                    ++ ": " ++ message)) ;;;
      ret None
  end.

(** The [for ... of] loop of [processUrls], with the array [titles] it
    pushes to. *)
Fixpoint processUrls_loop (urls : list jsval) (titles : list TitleRecord)
  : M (list TitleRecord) :=
  match urls with
  | [] => ret titles
  | url :: rest =>
      pageTitle <- getPageTitle url ;;
      if truthy pageTitle
      then processUrls_loop rest (titles ++ [mkTitle url (string_of pageTitle)])%list
      else processUrls_loop rest titles
  end.

Definition processUrls (urls : list jsval) : M (list TitleRecord) :=
  processUrls_loop urls [].

Definition pad2 (n : nat) : string :=
  JsString.padStart 2 "0"%char (JsString.of_nat n).

Definition timestamp (d : Date) : string :=
  JsString.of_nat (fullYear d) ++ pad2 (month d + 1) ++ pad2 (date d)
  ++ "-" ++ pad2 (hours d) ++ pad2 (minutes d).

Definition outputDir (env : Env) : string := path_join (dirname env) "output".

Definition outputPath (env : Env) : string :=
  path_join (outputDir env) ("page-titles-" ++ timestamp (now env) ++ ".csv").

(** The outer [catch]: [console.error('An error occurred:', error)] prints
    the label, a space and the error as [util.inspect] shows it. *)
Definition fatal (shown : string) : list event :=
  [Stderr ("An error occurred: " ++ shown)].

(** [csvWriter.writeRecords(titles)] and the confirmation line; a rejection
    lands in the outer [catch]. *)
Definition writeRecords (env : Env) (titles : list TitleRecord) : list event :=
  match write_error env with
  | None =>
      [CsvFile (outputPath env) Csv.titles (Csv.rows titles);
       Stdout ("Page titles extracted and saved to " ++ outputPath env)]
  | Some shown => fatal shown
  end.

(** The export stage of the driver: the output directory is created when it
    is missing, then the file is written. *)
Definition export (env : Env) (titles : list TitleRecord) : list event :=
  if output_dir_exists env then writeRecords env titles
  else
    match mkdir_error env with
    | None => Mkdir (outputDir env) :: writeRecords env titles
    | Some shown => fatal shown
    end.

(** The top-level function. *)
Definition main (env : Env) : M unit :=
  let sitemapUrl := argv2 env in
  if negb (truthy sitemapUrl) then
    emit (Stderr "Please provide a sitemap.xml URL as a command-line argument.")
  else
    sitemapXml <- fetchSitemapXml (string_of sitemapUrl) ;;
    if negb (Js.truthy sitemapXml) then
      emit (Stderr "Could not fetch sitemap.xml content from the provided URL.")
    else
      let '(urls, log) := parseSitemapXml sax sitemapXml in
      emit_all log ;;;
      match urls with
      | None => emit (Stderr "No valid URLs found in the sitemap.xml content.")
      | Some urls =>
          titles <- processUrls urls ;;
          emit_all (export env titles)
      end.

(** The events of a whole run. *)
Definition run (env : Env) (n : Net) : list event := snd (fst (main env n)).

(** *** The page requests of a run, as the network answered them *)

(** Each URL of the list with the answer to its request, the requests made
    one after the other from network state [n]. *)
Fixpoint answers (urls : list jsval) (n : Net) : list (jsval * response) :=
  match urls with
  | [] => []
  | u :: rest => let (r, n1) := axios_get u n in (u, r) :: answers rest n1
  end.

Fixpoint net_after (urls : list jsval) (n : Net) : Net :=
  match urls with
  | [] => n
  | u :: rest => net_after rest (snd (axios_get u n))
  end.

(** The page fetch succeeded. *)
Definition fetched (a : jsval * response) : bool :=
  match snd a with
  | Data _ => true
  | Rejected _ => false
  end.

(** The title that came out of the page, if one did. *)
Definition page_title (a : jsval * response) : option string :=
  match getPageTitle_try (snd a) with
  | Ok t => Some t
  | Throw _ => None
  end.

(** The title extraction succeeded: a title came out of the page and it is
    not the empty string. *)
Definition extracted (a : jsval * response) : bool :=
  match page_title a with
  | Some t => negb (String.eqb t "")
  | None => false
  end.

(** The row of a URL in the file: its title, then the URL. *)
Definition row_of (a : jsval * response) : list jsval :=
  [JStr (string_of (page_title a)); fst a].

Definition record_of (a : jsval * response) : TitleRecord :=
  mkTitle (fst a) (string_of (page_title a)).

Definition page_events (a : jsval * response) : list event :=
  match getPageTitle_try (snd a) with
  | Ok _ => [Request (fst a)]
  | Throw message =>
      [Request (fst a);
       Stderr ("Error fetching page title from " ++ Js.to_string (fst a)
               ++ ": " ++ message)]
  end.

(** A run that gets as far as the page loop: an argument is given, the
    sitemap request is answered with truthy data, and the parser returns
    the array [urls]; [n1] is the network after the sitemap request. *)
Definition reaches_pages (env : Env) (n : Net) (sitemapUrl : string)
           (sitemapXml : jsval) (n1 : Net) (urls : list jsval) : Prop :=
  argv2 env = Some sitemapUrl /\
  JsString.nonempty sitemapUrl = true /\
  axios_get (JStr sitemapUrl) n = (Data sitemapXml, n1) /\
  Js.truthy sitemapXml = true /\
  fst (parseSitemapXml sax sitemapXml) = Some urls.


End Script.

(** ** Reading a run *)

Module Trace.

Fixpoint requests (evs : list event) : list jsval :=
  match evs with
  | [] => []
  | Request u :: rest => u :: requests rest
  | _ :: rest => requests rest
  end.

Fixpoint stderr (evs : list event) : list string :=
  match evs with
  | [] => []
  | Stderr l :: rest => l :: stderr rest
  | _ :: rest => stderr rest
  end.

Fixpoint stdout (evs : list event) : list string :=
  match evs with
  | [] => []
  | Stdout l :: rest => l :: stdout rest
  | _ :: rest => stdout rest
  end.

(** The CSV files written: path, header titles and data rows. *)
Fixpoint files (evs : list event) : list (string * list string * list (list jsval)) :=
  match evs with
  | [] => []
  | CsvFile p h r :: rest => (p, h, r) :: files rest
  | _ :: rest => files rest
  end.

End Trace.

(** ** Sitemap documents *)

Module Sitemap.

Definition is_elem_named (name : string) (x : xml) : bool :=
  match x with
  | XElem n _ _ => String.eqb n name
  | _ => false
  end.

(** The child elements of a given name, in document order. *)
Definition elems_named (name : string) (children : list xml) : list xml :=
  filter (is_elem_named name) children.

Definition is_chars (x : xml) : bool :=
  match x with
  | XElem _ _ _ => false
  | _ => true
  end.

(** The URL text of a [url] entry of the sitemap schema: the entry has
    exactly one [loc] child, a plain element holding character data
    only. *)
Definition loc_text (entry : xml) : option string :=
  match entry with
  | XElem _ _ children =>
      match elems_named "loc" children with
      | [XElem _ [] cs] =>
          if forallb is_chars cs then Some (Xml2js.char_data cs) else None
      | _ => None
      end
  | _ => None
  end.

Fixpoint loc_texts (entries : list xml) : option (list string) :=
  match entries with
  | [] => Some []
  | e :: rest =>
      match loc_text e, loc_texts rest with
      | Some u, Some us => Some (u :: us)
      | _, _ => None
      end
  end.

(** The [url] entries of a document whose root is [urlset]. *)
Definition entries (root : xml) : option (list xml) :=
  match root with
  | XElem name _ children =>
      if String.eqb name "urlset" then Some (elems_named "url" children)
      else None
  | _ => None
  end.

(** The URLs a valid sitemap declares, in document order; [None] for a
    document that does not follow the schema. *)
Definition urls (root : xml) : option (list string) :=
  match entries root with
  | Some es => loc_texts es
  | None => None
  end.

End Sitemap.

(** ** Further readings of documents, strings, dates and traces *)

Module Reading.

(** A string made of whitespace characters only. *)
Inductive spaces : string -> Prop :=
| spaces_nil : spaces ""
| spaces_cons w r :
    In w JsString.white_space -> spaces r -> spaces (w ++ r).

(** The string starts, or ends, with a whitespace character. *)
Definition starts_with_space (s : string) : Prop :=
  exists w r, In w JsString.white_space /\ s = w ++ r.

Definition ends_with_space (s : string) : Prop :=
  exists w r, In w JsString.white_space /\ s = r ++ w.

(** What [url.loc[0]] finds in an entry: the value of its first [loc]
    child. *)
Definition first_loc (entry : xml) : option jsval :=
  match entry with
  | XElem _ _ children =>
      match Sitemap.elems_named "loc" children with
      | l :: _ => Some (Xml2js.convert l)
      | [] => None
      end
  | _ => None
  end.

Fixpoint first_locs (entries : list xml) : option (list jsval) :=
  match entries with
  | [] => Some []
  | e :: rest =>
      match first_loc e, first_locs rest with
      | Some v, Some vs => Some (v :: vs)
      | _, _ => None
      end
  end.

Definition is_string (v : jsval) : bool :=
  match v with
  | JStr _ => true
  | _ => false
  end.

(** Reading a decimal numeral back, leading zeros allowed. *)
Definition to_nat (s : string) : option nat :=
  option_map Nat.of_uint (NilEmpty.uint_of_string s).

(** A date as [new Date()] gives it, with a year of four digits. *)
Definition valid_date (d : Date) : Prop :=
  1000 <= fullYear d /\ fullYear d < 10 * 1000 /\
  month d < 12 /\ 1 <= date d <= 31 /\
  hours d < 24 /\ minutes d < 60.

(** A two-digit field of the timestamp is two characters long and reads
    back as the number it was made from. *)
Definition pad2_ok (n : nat) : bool :=
  Nat.eqb (String.length (pad2 n)) 2 &&
  match to_nat (pad2 n) with
  | Some m => Nat.eqb m n
  | None => false
  end.

Definition year_ok (y : nat) : bool :=
  Nat.eqb (String.length (JsString.of_nat y)) 4.

(** The directories a run created. *)
Fixpoint mkdirs (evs : list event) : list string :=
  match evs with
  | [] => []
  | Mkdir d :: rest => d :: mkdirs rest
  | _ :: rest => mkdirs rest
  end.


(** The value under a key of an xml2js object once the values [vs] have
    been assigned or pushed under it, [old] being there before. *)
Definition pushed (old : option jsval) (vs : list jsval) : option jsval :=
  match vs with
  | [] => old
  | _ :: _ =>
      Some (JArr (match old with
                  | None => []
                  | Some (JArr items) => items
                  | Some o => [o]
                  end ++ vs))
  end.

End Reading.

(** ** Concrete surroundings for worked examples *)

Module Examples.

Definition nl : string := JsString.of_bytes [10].
Definition nbsp : string := JsString.of_bytes [194; 160].

(** A network that answers from a table of URLs and the [response.data] of
    each, and never changes. *)
Definition Net : Type := list (string * jsval).

Fixpoint data_of (u : string) (pages : Net) : option jsval :=
  match pages with
  | [] => None
  | (k, d) :: rest => if String.eqb k u then Some d else data_of u rest
  end.

Definition axios_get (u : jsval) (pages : Net) : response * Net :=
  match u with
  | JStr s =>
      match data_of s pages with
      | Some d => (Data d, pages)
      | None => (Rejected "Request failed with status code 404", pages)
      end
  | _ => (Rejected "Invalid URL", pages)
  end.

Definition url_a : string := "https://a.test/".
Definition url_b : string := "https://a.test/b".
Definition url_c : string := "https://a.test/c".
Definition sitemap_url : string := "https://a.test/sitemap.xml".

Definition sitemap_two : string :=
  "<urlset><url><loc>https://a.test/</loc></url><url><loc>https://a.test/b</loc></url></urlset>".
Definition sitemap_one : string :=
  "<urlset><url><loc>https://a.test/</loc></url></urlset>".
Definition sitemap_three : string :=
  "<urlset><url><loc>https://a.test/</loc></url><url><loc>https://a.test/c</loc></url><url><loc>https://a.test/b</loc></url></urlset>".
Definition sitemap_empty : string := "<urlset></urlset>".
Definition sitemap_empty_ns : string :=
  "<urlset xmlns='http://www.sitemaps.org/schemas/sitemap/0.9'> </urlset>".
Definition sitemap_index : string :=
  "<sitemapindex><sitemap><loc>https://a.test/s1.xml</loc></sitemap></sitemapindex>".
Definition sitemap_no_loc : string :=
  "<urlset><url><loc>https://a.test/</loc></url><url><lastmod>2024-01-01</lastmod></url></urlset>".
Definition sitemap_two_locs : string :=
  "<urlset><url><loc>https://a.test/</loc><loc>https://a.test/b</loc></url></urlset>".
Definition sitemap_loc_attr : string :=
  "<urlset><url><loc>https://a.test/</loc></url><url><loc hreflang='en'>https://a.test/b</loc></url></urlset>".
Definition sitemap_unclosed : string := "<urlset><url>".
Definition sitemap_blank : string := " " ++ nbsp ++ nl.

Definition entry (u : string) : xml :=
  XElem "url" [] [XElem "loc" [] [XText u]].

Definition index_root : xml :=
  XElem "sitemapindex" []
    [XElem "sitemap" [] [XElem "loc" [] [XText "https://a.test/s1.xml"]]].
Definition no_loc_root : xml :=
  XElem "urlset" []
    [entry url_a; XElem "url" [] [XElem "lastmod" [] [XText "2024-01-01"]]].
Definition two_locs_root : xml :=
  XElem "urlset" []
    [XElem "url" [] [XElem "loc" [] [XText url_a]; XElem "loc" [] [XText url_b]]].
Definition loc_attr_root : xml :=
  XElem "urlset" []
    [entry url_a;
     XElem "url" [] [XElem "loc" [("hreflang", "en")] [XText url_b]]].

(** The tokenizer on the documents above; another text is read as one
    whose first character is neither [<] nor whitespace. *)
Definition sax (s : string) : result xml :=
  if String.eqb s sitemap_two then Ok (XElem "urlset" [] [entry url_a; entry url_b])
  else if String.eqb s sitemap_one then Ok (XElem "urlset" [] [entry url_a])
  else if String.eqb s sitemap_three then
    Ok (XElem "urlset" [] [entry url_a; entry url_c; entry url_b])
  else if String.eqb s sitemap_empty then Ok (XElem "urlset" [] [])
  else if String.eqb s sitemap_empty_ns then
    Ok (XElem "urlset"
              [("xmlns", "http://www.sitemaps.org/schemas/sitemap/0.9")]
              [XText " "])
  else if String.eqb s sitemap_index then Ok index_root
  else if String.eqb s sitemap_no_loc then Ok no_loc_root
  else if String.eqb s sitemap_two_locs then Ok two_locs_root
  else if String.eqb s sitemap_loc_attr then Ok loc_attr_root
  else if String.eqb s sitemap_unclosed then
    Throw ("Unclosed root tag" ++ nl ++ "Line: 0" ++ nl ++ "Column: 13"
           ++ nl ++ "Char: ")
  else Throw ("Non-whitespace before first tag." ++ nl ++ "Line: 0" ++ nl
              ++ "Column: 1" ++ nl ++ "Char: " ++ String.substring 0 1 s).

Definition page_home : string :=
  "<html><head><title> Home </title></head><body></body></html>".
Definition page_b : string :=
  "<html><head><title>B Page</title></head><body></body></html>".
Definition page_untitled : string :=
  "<html><head></head><body><p>hello</p></body></html>".
Definition page_empty_title : string :=
  "<html><head><title></title></head><body></body></html>".
Definition page_two_titles : string :=
  "<html><head><title>Home</title></head><body><svg><title>Menu</title></svg></body></html>".
Definition page_blank_title : string :=
  "<html><head><title>   </title></head><body></body></html>".
Definition page_nbsp_title : string :=
  "<html><head><title>&nbsp;</title></head><body></body></html>".
Definition page_nbsp_padded : string :=
  "<html><head><title>&nbsp;Home&nbsp;</title></head><body></body></html>".

Definition html (head body : list node) : list node :=
  [NElem "html" [NElem "head" head; NElem "body" body]].

Definition parse_html (s : string) : list node :=
  if String.eqb s page_home then html [NElem "title" [NText " Home "]] []
  else if String.eqb s page_b then html [NElem "title" [NText "B Page"]] []
  else if String.eqb s page_untitled then html [] [NElem "p" [NText "hello"]]
  else if String.eqb s page_empty_title then html [NElem "title" []] []
  else if String.eqb s page_two_titles then
    html [NElem "title" [NText "Home"]]
         [NElem "svg" [NElem "title" [NText "Menu"]]]
  else if String.eqb s page_blank_title then html [NElem "title" [NText "   "]] []
  else if String.eqb s page_nbsp_title then html [NElem "title" [NText nbsp]] []
  else if String.eqb s page_nbsp_padded then
    html [NElem "title" [NText (nbsp ++ "Home" ++ nbsp)]] []
  else html [] [NText s].

(** [cheerio.load] on the pages above.  It refuses [null] and [undefined]
    with its own error; the networks below serve it texts only, and a
    decoded value of another kind is answered here like [null]. *)
Definition cheerio_load (content : jsval) : result (list node) :=
  match content with
  | JStr s => Ok (parse_html s)
  | _ => Throw "cheerio.load() expects a string"
  end.

Definition path_join (a b : string) : string := a ++ "/" ++ b.

Definition env (arg : option string) : Env :=
  mkEnv arg "/app" (mkDate 2021 8 1 12 5) false None None.





Definition csv_path : string := "/app/output/page-titles-20210901-1205.csv".

Definition run_in (e : Env) (pages : Net) : list event :=
  run Net axios_get sax cheerio_load path_join e pages.

Definition run (pages : Net) (arg : option string) : list event :=
  run_in (env arg) pages.

Definition getPageTitle (u : string) (pages : Net) : option string * list event * Net :=
  getPageTitle Net axios_get cheerio_load (JStr u) pages.

Definition answers (urls : list jsval) (pages : Net) : list (jsval * response) :=
  answers Net axios_get urls pages.

(** Both pages of the two-entry sitemap are served. *)
Definition pages_all : Net :=
  [(sitemap_url, JStr sitemap_two); (url_a, JStr page_home); (url_b, JStr page_b)].

(** The first page of the two-entry sitemap is missing. *)
Definition pages_second_only : Net :=
  [(sitemap_url, JStr sitemap_two); (url_b, JStr page_b)].

(** The middle page of the three-entry sitemap is missing. *)
Definition pages_middle_missing : Net :=
  [(sitemap_url, JStr sitemap_three); (url_a, JStr page_home); (url_b, JStr page_b)].

(** The three-entry sitemap: the title of the first page is padded with
    no-break spaces, the title of the middle page is a no-break space and
    nothing else. *)
Definition pages_mixed : Net :=
  [(sitemap_url, JStr sitemap_three); (url_a, JStr page_nbsp_padded);
   (url_c, JStr page_nbsp_title); (url_b, JStr page_b)].

(** The only page of the one-entry sitemap is missing. *)
Definition pages_none : Net := [(sitemap_url, JStr sitemap_one)].

(** The sitemap itself is missing. *)
Definition pages_no_sitemap : Net := [].

(** The sitemap is served with an empty body. *)
Definition pages_empty_sitemap : Net := [(sitemap_url, JStr "")].

(** The sitemap is served with the body [null], which axios decodes. *)
Definition pages_null_sitemap : Net := [(sitemap_url, JNull)].

Definition pages_untitled : Net := [(url_a, JStr page_untitled)].
Definition pages_empty_title : Net := [(url_a, JStr page_empty_title)].
Definition pages_two_titles : Net := [(url_a, JStr page_two_titles)].
Definition pages_blank_title : Net := [(url_a, JStr page_blank_title)].
Definition pages_nbsp_title : Net := [(url_a, JStr page_nbsp_title)].
Definition pages_nbsp_padded : Net := [(url_a, JStr page_nbsp_padded)].

End Examples.

(** * Properties *)

(** ** Whitespace and trimming *)

Section WhitespaceFacts.

Lemma string_app_assoc (a b c : string) : (a ++ b) ++ c = a ++ b ++ c.
Proof.
  induction a as [|x r IH]; simpl; [reflexivity | rewrite IH; reflexivity].
Qed.

Lemma string_app_nil_r (a : string) : a ++ "" = a.
Proof.
  induction a as [|x r IH]; simpl; [reflexivity | rewrite IH; reflexivity].
Qed.

Lemma string_length_app a b :
  String.length (a ++ b) = String.length a + String.length b.
Proof.
  induction a as [|c r IH]; simpl; [reflexivity | rewrite IH; reflexivity].
Qed.

Lemma after_prefix_spec p : forall s r,
  JsString.after_prefix p s = Some r <-> s = p ++ r.
Proof.
  induction p as [|a p IH]; intros s r; simpl.
  - split; [intro H; injection H as ->; reflexivity | intros ->; reflexivity].
  - destruct s as [|b s]; [split; discriminate|].
    destruct (Ascii.eqb a b) eqn:E.
    + apply Ascii.eqb_eq in E. subst b. rewrite IH.
      split; [intros ->; reflexivity | intro H; injection H as ->; reflexivity].
    + split; [discriminate|]. intro H. injection H as <- _.
      rewrite Ascii.eqb_refl in E. discriminate.
Qed.

Lemma after_any_some ps : forall s r,
  JsString.after_any ps s = Some r -> exists p, In p ps /\ s = p ++ r.
Proof.
  induction ps as [|p rest IH]; intros s r H; simpl in H; [discriminate|].
  destruct (JsString.after_prefix p s) as [r'|] eqn:E.
  - injection H as ->. exists p. split; [left; reflexivity|].
    apply after_prefix_spec. exact E.
  - destruct (IH s r H) as (q & Hq & Hs). exists q. split; [right|]; assumption.
Qed.

Lemma after_any_none ps : forall s,
  JsString.after_any ps s = None ->
  forall p r, In p ps -> s <> p ++ r.
Proof.
  induction ps as [|q rest IH]; intros s H p r Hin; simpl in *; [destruct Hin|].
  destruct (JsString.after_prefix q s) as [r'|] eqn:E; [discriminate|].
  destruct Hin as [->|Hin].
  - intro Hs. apply after_prefix_spec in Hs. congruence.
  - apply IH; assumption.
Qed.

(** The encodings of the table are a prefix code: the first that matches is
    the whitespace character the string starts with. *)
Lemma after_space_table w r :
  In w JsString.white_space -> JsString.after_space (w ++ r) = Some r.
Proof.
  intro Hin. unfold JsString.white_space in Hin.
  repeat (destruct Hin as [<-|Hin]; [reflexivity|]).
  destruct Hin.
Qed.

Lemma white_space_nonempty w : In w JsString.white_space -> w <> "".
Proof.
  intro Hin. unfold JsString.white_space in Hin.
  repeat (destruct Hin as [<-|Hin]; [discriminate|]).
  destruct Hin.
Qed.

Lemma after_space_some s r :
  JsString.after_space s = Some r ->
  exists w, In w JsString.white_space /\ s = w ++ r.
Proof. apply after_any_some. Qed.

Lemma after_space_none s :
  JsString.after_space s = None -> ~ Reading.starts_with_space s.
Proof.
  intros H (w & r & Hw & Hs).
  exact (after_any_none _ _ H w r Hw Hs).
Qed.

Lemma after_space_shorter s r :
  JsString.after_space s = Some r -> String.length r < String.length s.
Proof.
  intro H. destruct (after_space_some s r H) as (w & Hw & ->).
  rewrite string_length_app.
  assert (Hne := white_space_nonempty w Hw).
  destruct w; [congruence | simpl; lia].
Qed.

Lemma trimStart_fuel_spec fuel : forall s,
  String.length s <= fuel ->
  exists a,
    Reading.spaces a /\ s = a ++ JsString.trimStart_fuel fuel s /\
    JsString.after_space (JsString.trimStart_fuel fuel s) = None.
Proof.
  induction fuel as [|k IH]; intros s Hlen.
  - destruct s; [|simpl in Hlen; lia].
    exists "". repeat split; constructor.
  - simpl. destruct (JsString.after_space s) as [r|] eqn:E.
    + destruct (after_space_some s r E) as (w & Hw & ->).
      assert (Hr := after_space_shorter _ _ E).
      destruct (IH r) as (a & Ha & Hs & Hn); [lia|].
      exists (w ++ a). split; [constructor; assumption|].
      split; [|exact Hn].
      rewrite string_app_assoc, <- Hs. reflexivity.
    + exists "". repeat split; [constructor | exact E].
Qed.

(** [trimStart] takes a run of whitespace characters off the front and
    leaves a string that does not start with one. *)
Lemma trimStart_spec s :
  exists a,
    Reading.spaces a /\ s = a ++ JsString.trimStart s /\
    ~ Reading.starts_with_space (JsString.trimStart s).
Proof.
  destruct (trimStart_fuel_spec (String.length s) s (le_n _))
    as (a & Ha & Hs & Hn).
  exists a. repeat split; try assumption.
  apply after_space_none. exact Hn.
Qed.

Lemma trimStart_fuel_enough f1 : forall f2 s,
  String.length s <= f1 -> String.length s <= f2 ->
  JsString.trimStart_fuel f1 s = JsString.trimStart_fuel f2 s.
Proof.
  induction f1 as [|k IH]; intros f2 s H1 H2.
  - destruct s; [|simpl in H1; lia]. destruct f2; reflexivity.
  - destruct f2 as [|k2].
    + destruct s; [reflexivity | simpl in H2; lia].
    + simpl. destruct (JsString.after_space s) as [r|] eqn:E; [|reflexivity].
      assert (Hr := after_space_shorter _ _ E).
      apply IH; lia.
Qed.

Lemma trimStart_space w r :
  In w JsString.white_space -> JsString.trimStart (w ++ r) = JsString.trimStart r.
Proof.
  intro Hw. unfold JsString.trimStart.
  assert (Hne := white_space_nonempty w Hw).
  rewrite string_length_app.
  destruct (String.length w) eqn:Lw; [destruct w; [congruence | discriminate]|].
  cbn [Nat.add JsString.trimStart_fuel].
  rewrite (after_space_table w r Hw).
  apply trimStart_fuel_enough; lia.
Qed.

Lemma trimStart_unchanged s :
  ~ Reading.starts_with_space s -> JsString.trimStart s = s.
Proof.
  intro H. unfold JsString.trimStart.
  destruct (String.length s); [reflexivity|]. simpl.
  destruct (JsString.after_space s) as [r|] eqn:E; [|reflexivity].
  elim H. destruct (after_space_some s r E) as (w & Hw & Hs).
  exists w, r. split; assumption.
Qed.

(** The boolean test [blank] and the property it decides. *)
Lemma blank_spaces s : JsString.blank s = true <-> Reading.spaces s.
Proof.
  unfold JsString.blank. split.
  - intro H. destruct (trimStart_spec s) as (a & Ha & Hs & _).
    destruct (JsString.trimStart s); [|discriminate].
    rewrite Hs, string_app_nil_r. exact Ha.
  - intro H. induction H as [|w r Hw Hr IH]; [reflexivity|].
    rewrite (trimStart_space w r Hw). exact IH.
Qed.

Lemma is_white_space_spec t :
  JsString.is_white_space t = true <-> In t JsString.white_space.
Proof.
  unfold JsString.is_white_space. rewrite existsb_exists. split.
  - intros (w & Hw & E). apply String.eqb_eq in E. subst. exact Hw.
  - intro H. exists t. split; [exact H | apply String.eqb_refl].
Qed.

(** [trimEnd] takes a run of whitespace characters off the end. *)
Lemma trimEnd_split t :
  exists b, Reading.spaces b /\ t = JsString.trimEnd t ++ b.
Proof.
  induction t as [|c r (b & Hb & Hr)]; simpl.
  - exists "". split; [constructor | reflexivity].
  - destruct (JsString.is_white_space (String c (JsString.trimEnd r))) eqn:E.
    + apply is_white_space_spec in E.
      exists (String c (JsString.trimEnd r) ++ b).
      split; [constructor; assumption|].
      simpl. rewrite <- Hr. reflexivity.
    + exists b. split; [exact Hb|]. simpl. rewrite <- Hr. reflexivity.
Qed.

(** What [trimEnd] leaves does not end with a whitespace character. *)
Lemma trimEnd_ends t : ~ Reading.ends_with_space (JsString.trimEnd t).
Proof.
  induction t as [|c r IH]; simpl.
  - intros (w & x & Hw & E).
    destruct x; simpl in E; [|discriminate].
    subst w. exact (white_space_nonempty "" Hw eq_refl).
  - destruct (JsString.is_white_space (String c (JsString.trimEnd r))) eqn:E.
    + intros (w & x & Hw & E').
      destruct x; simpl in E'; [|discriminate].
      subst w. exact (white_space_nonempty "" Hw eq_refl).
    + intros (w & x & Hw & E').
      destruct x as [|c' x]; simpl in E'.
      * subst w. apply is_white_space_spec in Hw. congruence.
      * injection E' as _ E'. apply IH. exists w, x. split; assumption.
Qed.

(** Trimming the end does not uncover whitespace at the front. *)
Lemma trimEnd_starts t :
  ~ Reading.starts_with_space t ->
  ~ Reading.starts_with_space (JsString.trimEnd t).
Proof.
  intros H (w & x & Hw & E). apply H.
  destruct (trimEnd_split t) as (b & _ & Ht).
  exists w, (x ++ b). split; [exact Hw|].
  rewrite Ht, E. apply string_app_assoc.
Qed.

(** What [trim] keeps and what it removes. *)
Lemma trim_split s :
  exists a b,
    s = a ++ JsString.trim s ++ b /\
    Reading.spaces a /\ Reading.spaces b /\
    ~ Reading.starts_with_space (JsString.trim s) /\
    ~ Reading.ends_with_space (JsString.trim s).
Proof.
  destruct (trimStart_spec s) as (a & Ha & Hs & Hn).
  destruct (trimEnd_split (JsString.trimStart s)) as (b & Hb & Ht).
  exists a, b. unfold JsString.trim.
  split; [rewrite <- Ht; exact Hs|].
  repeat split; try assumption.
  - apply trimEnd_starts. exact Hn.
  - apply trimEnd_ends.
Qed.

Lemma spaces_app a b :
  Reading.spaces a -> Reading.spaces b -> Reading.spaces (a ++ b).
Proof.
  intros Ha Hb. induction Ha as [|w r Hw Hr IH]; [exact Hb|].
  rewrite string_app_assoc. constructor; assumption.
Qed.

(** The trimmed string is empty exactly when the string is whitespace
    only. *)
Lemma trim_empty s : JsString.trim s = "" <-> Reading.spaces s.
Proof.
  destruct (trim_split s) as (a & b & Hs & Ha & Hb & Hst & _).
  split.
  - intro E. rewrite E in Hs. rewrite Hs. simpl.
    apply spaces_app; assumption.
  - intro H. apply blank_spaces in H. unfold JsString.blank in H.
    unfold JsString.trim.
    destruct (JsString.trimStart s); [reflexivity | discriminate].
Qed.

Lemma nonempty_eqb s : JsString.nonempty s = negb (String.eqb s "").
Proof. destruct s; reflexivity. Qed.

End WhitespaceFacts.

(** ** xml2js: the shape of the result object *)

Section Xml2jsFacts.

Lemma lookup_set_prop key k v obj :
  Js.lookup k (Xml2js.set_prop key v obj) =
  if String.eqb key k then Some v else Js.lookup k obj.
Proof.
  induction obj as [|[k0 v0] rest IH]; simpl.
  - reflexivity.
  - destruct (String.eqb k0 key) eqn:E0; simpl.
    + apply String.eqb_eq in E0. subst k0.
      destruct (String.eqb key k); reflexivity.
    + destruct (String.eqb k0 k) eqn:E1.
      * apply String.eqb_eq in E1. subst k0.
        rewrite String.eqb_sym, E0. reflexivity.
      * exact IH.
Qed.

Lemma pushed_cons old v vs :
  Reading.pushed (Reading.pushed old [v]) vs = Reading.pushed old (v :: vs).
Proof.
  destruct vs as [|w ws]; [reflexivity|].
  destruct old as [[| | | | |items|]|]; simpl; try reflexivity.
  rewrite <- app_assoc. reflexivity.
Qed.

Lemma lookup_assignOrPush obj key v k :
  Js.lookup k (Xml2js.assignOrPush obj key v) =
  if String.eqb key k then Reading.pushed (Js.lookup key obj) [v]
  else Js.lookup k obj.
Proof.
  unfold Xml2js.assignOrPush.
  destruct (Js.lookup key obj) as [[| | | | |items|]|];
    rewrite lookup_set_prop; reflexivity.
Qed.

Lemma lookup_add_children k cs : forall obj,
  Js.lookup k (Xml2js.add_children cs obj) =
  Reading.pushed (Js.lookup k obj)
                 (List.map Xml2js.convert (Sitemap.elems_named k cs)).
Proof.
  induction cs as [|c rest IH]; intro obj; simpl.
  - reflexivity.
  - destruct c as [s|s|n attrs children]; simpl; try apply IH.
    rewrite IH, lookup_assignOrPush.
    destruct (String.eqb n k) eqn:E; simpl.
    + apply String.eqb_eq in E. subst n.
      apply (pushed_cons (Js.lookup k obj)).
    + reflexivity.
Qed.

Lemma convert_elem name attrs children :
  Xml2js.convert (XElem name attrs children) =
  Xml2js.close_tag (Xml2js.add_children children (Xml2js.open_tag attrs))
                   (Xml2js.char_data children) (Xml2js.has_cdata children).
Proof.
  reflexivity.
Qed.

Lemma lookup_open_tag k attrs :
  String.eqb Xml2js.attrkey k = false ->
  Js.lookup k (Xml2js.open_tag attrs) = None.
Proof.
  intro H. destruct attrs; [reflexivity|].
  cbn [Xml2js.open_tag Js.lookup]. rewrite H. reflexivity.
Qed.

(** Reading a child's name off an element's value finds what
    [assignOrPush] collected, or [undefined]. *)
Lemma get_close_tag obj chars cdata k :
  String.eqb Xml2js.charkey k = false ->
  Js.get (Xml2js.close_tag obj chars cdata) k =
  Ok (match Js.lookup k obj with Some v => v | None => JUndefined end).
Proof.
  intro H.
  assert (G : forall o, Js.get (JObj o) k =
              Ok (match Js.lookup k o with Some v => v | None => JUndefined end)).
  { intro o. cbn [Js.get]. destruct (Js.lookup k o); reflexivity. }
  unfold Xml2js.close_tag.
  destruct (JsString.blank chars && negb cdata), obj as [|p rest];
    try reflexivity; rewrite G; [reflexivity|].
  change (Js.lookup k ((Xml2js.charkey, JStr chars) :: p :: rest))
    with (if String.eqb Xml2js.charkey k then Some (JStr chars)
          else Js.lookup k (p :: rest)).
  rewrite H. reflexivity.
Qed.

Lemma get_child name attrs children k :
  String.eqb Xml2js.attrkey k = false ->
  String.eqb Xml2js.charkey k = false ->
  Js.get (Xml2js.convert (XElem name attrs children)) k =
  Ok (match List.map Xml2js.convert (Sitemap.elems_named k children) with
      | [] => JUndefined
      | vs => JArr vs
      end).
Proof.
  intros Ha Hc.
  rewrite convert_elem, get_close_tag by exact Hc.
  rewrite lookup_add_children, lookup_open_tag by exact Ha.
  destruct (List.map Xml2js.convert (Sitemap.elems_named k children));
    reflexivity.
Qed.

Lemma add_children_chars cs obj :
  forallb Sitemap.is_chars cs = true -> Xml2js.add_children cs obj = obj.
Proof.
  induction cs as [|c rest IH]; simpl; intro H; [reflexivity|].
  apply andb_true_iff in H as [Hc Hr].
  destruct c; simpl in *; try discriminate; auto.
Qed.

(** A plain element with character data only becomes that string. *)
Lemma convert_chars name cs :
  forallb Sitemap.is_chars cs = true ->
  Xml2js.convert (XElem name [] cs) = JStr (Xml2js.char_data cs).
Proof.
  intro H. rewrite convert_elem, add_children_chars by exact H.
  unfold Xml2js.close_tag. simpl.
  destruct (JsString.blank (Xml2js.char_data cs) && negb (Xml2js.has_cdata cs));
    reflexivity.
Qed.

(** An element with an attribute becomes an object. *)
Lemma convert_with_attribute name a attrs cs :
  Reading.is_string (Xml2js.convert (XElem name (a :: attrs) cs)) = false.
Proof.
  rewrite convert_elem. unfold Xml2js.close_tag.
  assert (Hk : exists p rest, Xml2js.add_children cs
                 (Xml2js.open_tag (a :: attrs)) = p :: rest).
  { assert (L := lookup_add_children Xml2js.attrkey cs
                   (Xml2js.open_tag (a :: attrs))).
    destruct (Xml2js.add_children cs (Xml2js.open_tag (a :: attrs)))
      as [|p rest]; [|eexists; eexists; reflexivity].
    exfalso. cbn [Js.lookup Xml2js.open_tag] in L.
    change (String.eqb Xml2js.attrkey Xml2js.attrkey) with true in L.
    cbv iota in L.
    destruct (List.map Xml2js.convert (Sitemap.elems_named Xml2js.attrkey cs));
      discriminate. }
  destruct Hk as (p & rest & ->).
  destruct (JsString.blank (Xml2js.char_data cs) && negb (Xml2js.has_cdata cs));
    reflexivity.
Qed.

(** The callback of [parseSitemapXml] on a schema-conforming entry. *)
Lemma loc_of_entry e u :
  Sitemap.is_elem_named "url" e = true ->
  Sitemap.loc_text e = Some u ->
  (loc <-! Js.get (Xml2js.convert e) "loc" ;; Js.get0 loc) = Ok (JStr u).
Proof.
  intros He H.
  destruct e as [s|s|n attrs children]; try (simpl in He; discriminate).
  rewrite get_child by reflexivity.
  unfold Sitemap.loc_text in H.
  destruct (Sitemap.elems_named "loc" children) as [|l ls];
    try discriminate.
  destruct l as [s|s|ln [|a la] cs], ls as [|l2 ls]; try discriminate.
  destruct (forallb Sitemap.is_chars cs) eqn:E; try discriminate.
  injection H as <-.
  cbn [List.map]. rewrite convert_chars by exact E. reflexivity.
Qed.

Lemma map_entries es : forall us,
  Forall (fun e => Sitemap.is_elem_named "url" e = true) es ->
  Sitemap.loc_texts es = Some us ->
  Js.map_items (fun url => loc <-! Js.get url "loc" ;; Js.get0 loc)
               (List.map Xml2js.convert es) = Ok (List.map JStr us).
Proof.
  induction es as [|e rest IH]; intros us Hall H; simpl in *.
  - injection H as <-. reflexivity.
  - inversion Hall as [|? ? He Hrest]; subst.
    destruct (Sitemap.loc_text e) as [u|] eqn:Eu; try discriminate.
    destruct (Sitemap.loc_texts rest) as [us'|] eqn:Er; try discriminate.
    injection H as <-.
    rewrite (loc_of_entry e u He Eu). simpl.
    rewrite (IH us' Hrest eq_refl). reflexivity.
Qed.

Lemma elems_named_all name cs :
  Forall (fun e => Sitemap.is_elem_named name e = true)
         (Sitemap.elems_named name cs).
Proof.
  apply Forall_forall. intros x Hx.
  apply filter_In in Hx. apply Hx.
Qed.

Lemma map_items_throws f items x :
  In x items -> (exists m, f x = Throw m) ->
  exists m, Js.map_items f items = Throw m.
Proof.
  induction items as [|y rest IH]; intros Hin Hx; [destruct Hin|].
  simpl. destruct (f y) as [v|m] eqn:Ey; [|eexists; reflexivity].
  destruct Hin as [->|Hin].
  - destruct Hx as [m Hm]. congruence.
  - destruct (IH Hin Hx) as [m Hm]. rewrite Hm. eexists. reflexivity.
Qed.

(** The callback [url => url.loc[0]] on the value of an element. *)
Lemma loc0_of_element name attrs children :
  (loc <-! Js.get (Xml2js.convert (XElem name attrs children)) "loc" ;; Js.get0 loc) =
  match Reading.first_loc (XElem name attrs children) with
  | Some v => Ok v
  | None => Throw "Cannot read properties of undefined (reading '0')"
  end.
Proof.
  rewrite get_child by reflexivity.
  unfold Reading.first_loc.
  destruct (Sitemap.elems_named "loc" children) as [|l ls]; reflexivity.
Qed.

Lemma map_first_locs es :
  Forall (fun e => Sitemap.is_elem_named "url" e = true) es ->
  Js.map_items (fun url => loc <-! Js.get url "loc" ;; Js.get0 loc)
               (List.map Xml2js.convert es) =
  match Reading.first_locs es with
  | Some vs => Ok vs
  | None => Throw "Cannot read properties of undefined (reading '0')"
  end.
Proof.
  induction es as [|e rest IH]; intro Hall; [reflexivity|].
  inversion Hall as [|? ? He Hrest]; subst.
  destruct e as [s|s|name attrs children]; try (simpl in He; discriminate).
  cbn [List.map Js.map_items Reading.first_locs].
  rewrite loc0_of_element.
  destruct (Reading.first_loc (XElem name attrs children)) as [v|];
    [|reflexivity].
  cbn [rbind]. rewrite (IH Hrest).
  destruct (Reading.first_locs rest); reflexivity.
Qed.

Lemma first_locs_length es : forall vs,
  Reading.first_locs es = Some vs -> length vs = length es.
Proof.
  induction es as [|e rest IH]; intros vs H; simpl in H.
  - injection H as <-. reflexivity.
  - destruct (Reading.first_loc e); try discriminate.
    destruct (Reading.first_locs rest) as [vs'|]; try discriminate.
    injection H as <-. simpl. f_equal. apply IH. reflexivity.
Qed.

Lemma first_locs_app es1 : forall es2 vs,
  Reading.first_locs (es1 ++ es2) = Some vs ->
  exists vs1 vs2,
    Reading.first_locs es1 = Some vs1 /\ Reading.first_locs es2 = Some vs2 /\
    vs = (vs1 ++ vs2)%list.
Proof.
  induction es1 as [|e rest IH]; intros es2 vs H; simpl in H.
  - exists [], vs. repeat split. exact H.
  - destruct (Reading.first_loc e) as [v|] eqn:Ev; try discriminate.
    destruct (Reading.first_locs (rest ++ es2)) as [vs'|] eqn:Er;
      try discriminate.
    injection H as <-.
    destruct (IH es2 vs' Er) as (vs1 & vs2 & H1 & H2 & ->).
    exists (v :: vs1), vs2. simpl. rewrite Ev, H1. repeat split. exact H2.
Qed.

End Xml2jsFacts.

(** ** The sitemap parser *)

Section SitemapParserFacts.
Variable sax : string -> result xml.

Lemma loc_texts_length es : forall us,
  Sitemap.loc_texts es = Some us -> length us = length es.
Proof.
  induction es as [|e rest IH]; intros us H; simpl in H.
  - injection H as <-. reflexivity.
  - destruct (Sitemap.loc_text e); try discriminate.
    destruct (Sitemap.loc_texts rest) as [us'|]; try discriminate.
    injection H as <-. simpl. f_equal. apply IH. reflexivity.
Qed.

(** The [try] block on a document whose root is [urlset]: the array of the
    values of the [url] children is mapped, and without such a child
    [.map] is read off [undefined]. *)
Lemma try_on_urlset xmlContent attrs children :
  JsString.trim xmlContent <> "" ->
  sax xmlContent = Ok (XElem "urlset" attrs children) ->
  parseSitemapXml_try sax (JStr xmlContent) =
  Js.map (match List.map Xml2js.convert (Sitemap.elems_named "url" children) with
          | [] => JUndefined
          | vs => JArr vs
          end)
         (fun url => loc <-! Js.get url "loc" ;; Js.get0 loc).
Proof.
  intros Hne Hsax.
  unfold parseSitemapXml_try, Xml2js.parseStringPromise.
  cbn [Js.toString Js.string_of Js.to_string rbind].
  destruct (JsString.trim xmlContent) eqn:E; [congruence|].
  rewrite Hsax.
  cbn [rbind Js.get Js.lookup].
  change (String.eqb "urlset" "urlset") with true. cbv iota.
  cbn [rbind].
  rewrite get_child by reflexivity.
  reflexivity.
Qed.

(** The [try] block, read on the text and on the document tree. *)
Lemma try_on_text xmlContent :
  parseSitemapXml_try sax (JStr xmlContent) =
  match JsString.trim xmlContent with
  | EmptyString => Throw "Cannot read properties of null (reading 'urlset')"
  | _ =>
      match sax xmlContent with
      | Throw m => Throw m
      | Ok (XElem name attrs children) =>
          if String.eqb name "urlset" then
            match Sitemap.elems_named "url" children with
            | [] => Throw "Cannot read properties of undefined (reading 'map')"
            | es =>
                match Reading.first_locs es with
                | Some vs => Ok vs
                | None => Throw "Cannot read properties of undefined (reading '0')"
                end
            end
          else Throw "Cannot read properties of undefined (reading 'url')"
      | Ok _ => Throw "Non-whitespace before first tag."
      end
  end.
Proof.
  destruct (JsString.trim xmlContent) eqn:Et.
  - unfold parseSitemapXml_try, Xml2js.parseStringPromise.
    cbn [Js.toString Js.string_of Js.to_string rbind]. rewrite Et. reflexivity.
  - destruct (sax xmlContent) as [[s0|s0|name attrs children]|m] eqn:Es;
      try (unfold parseSitemapXml_try, Xml2js.parseStringPromise;
           cbn [Js.toString Js.string_of Js.to_string rbind];
           rewrite Et, Es; reflexivity).
    destruct (String.eqb name "urlset") eqn:En.
    + apply String.eqb_eq in En. subst name.
      rewrite (try_on_urlset xmlContent attrs children) by congruence.
      assert (Hall := elems_named_all "url" children).
      destruct (Sitemap.elems_named "url" children) as [|e rest]; [reflexivity|].
      cbn [List.map Js.map]. apply (map_first_locs (e :: rest) Hall).
    + unfold parseSitemapXml_try, Xml2js.parseStringPromise.
      cbn [Js.toString Js.string_of Js.to_string rbind].
      rewrite Et, Es. cbn [rbind Js.get Js.lookup]. rewrite En. reflexivity.
Qed.

(** The [try] block on any value: the text [toString] gives is read as
    above, and no text means an exception. *)
Lemma try_on_value xmlContent :
  parseSitemapXml_try sax xmlContent =
  match Js.toString xmlContent with
  | Ok text => parseSitemapXml_try sax (JStr text)
  | Throw m => Throw m
  end.
Proof.
  unfold parseSitemapXml_try, Xml2js.parseStringPromise.
  destruct (Js.toString xmlContent); reflexivity.
Qed.

(** When [parseSitemapXml] returns an array, the text was a document with
    root [urlset] and the array holds the first [loc] of its entries. *)
Lemma parse_some_tree xmlContent urls :
  fst (parseSitemapXml sax xmlContent) = Some urls ->
  exists text attrs children,
    Js.toString xmlContent = Ok text /\
    sax text = Ok (XElem "urlset" attrs children) /\
    Sitemap.elems_named "url" children <> [] /\
    Reading.first_locs (Sitemap.elems_named "url" children) = Some urls.
Proof.
  unfold parseSitemapXml. rewrite try_on_value.
  destruct (Js.toString xmlContent) as [text|m] eqn:Et; [|discriminate].
  rewrite try_on_text.
  destruct (JsString.trim text); [discriminate|].
  destruct (sax text) as [[s0|s0|name attrs children]|m] eqn:Es;
    try discriminate.
  destruct (String.eqb name "urlset") eqn:En; [|discriminate].
  apply String.eqb_eq in En. subst name.
  destruct (Sitemap.elems_named "url" children) as [|e rest] eqn:Ees;
    [discriminate|].
  destruct (Reading.first_locs (e :: rest)) as [vs|] eqn:Evs; [|discriminate].
  cbn [fst]. intro H. injection H as <-.
  exists text, attrs, children. rewrite Ees.
  split; [reflexivity|]. split; [exact Es|].
  split; [discriminate | exact Evs].
Qed.

(** C1, as the code has it: a sitemap whose root [urlset] element has no
    [url] child makes [parseSitemapXml] return the failure value [null],
    with one error line logged; it does not return an empty array. *)
Theorem parseSitemapXml_empty_urlset xmlContent attrs children :
  sax xmlContent = Ok (XElem "urlset" attrs children) ->
  Sitemap.elems_named "url" children = [] ->
  exists message,
    parseSitemapXml sax (JStr xmlContent) =
    (None, [Stderr ("Error parsing sitemap.xml content: " ++ message)]).
Proof.
  intros Hsax Hnone.
  unfold parseSitemapXml.
  destruct (JsString.trim xmlContent) eqn:E.
  - rewrite try_on_text, E. eexists. reflexivity.
  - rewrite (try_on_urlset xmlContent attrs children) by congruence.
    rewrite Hnone. eexists. reflexivity.
Qed.

(** C3, as the code has it: for a valid sitemap with N >= 1 [url] entries
    (the root is [urlset], each entry has exactly one plain [loc] child
    holding the URL text, the document is in the scope of the xml2js
    model), [parseSitemapXml] returns exactly N values, the URL strings of
    the entries in document order, and logs nothing. *)
Theorem parseSitemapXml_urls_in_order xmlContent root es us :
  JsString.trim xmlContent <> "" ->
  sax xmlContent = Ok root ->
  Xml2js.plain root = true ->
  Sitemap.entries root = Some es ->
  Sitemap.loc_texts es = Some us ->
  es <> [] ->
  parseSitemapXml sax (JStr xmlContent) = (Some (List.map JStr us), []) /\
  length (List.map JStr us) = length es.
Proof.
  intros Hne Hsax _ Hes Hus Hpos.
  split; [|rewrite length_map; apply loc_texts_length; exact Hus].
  destruct root as [s|s|name attrs children]; try discriminate.
  unfold Sitemap.entries in Hes.
  destruct (String.eqb name "urlset") eqn:En; try discriminate.
  apply String.eqb_eq in En. subst name.
  injection Hes as <-.
  unfold parseSitemapXml.
  rewrite (try_on_urlset xmlContent attrs children Hne Hsax).
  destruct (Sitemap.elems_named "url" children) as [|e rest] eqn:E;
    [congruence|].
  assert (Hm := map_entries (e :: rest) us).
  rewrite <- E in Hm at 1.
  specialize (Hm (elems_named_all "url" children) Hus).
  cbn [List.map] in Hm |- *. cbn [Js.map].
  rewrite Hm. reflexivity.
Qed.



(** X3: one [url] entry without a [loc] child makes [parseSitemapXml]
    return [null] for the whole document, whatever the other entries hold:
    there is no partial result. *)
Theorem parseSitemapXml_entry_without_loc xmlContent root es e :
  sax xmlContent = Ok root ->
  Sitemap.entries root = Some es ->
  In e es ->
  Reading.first_loc e = None ->
  exists message,
    parseSitemapXml sax (JStr xmlContent) =
    (None, [Stderr ("Error parsing sitemap.xml content: " ++ message)]).
Proof.
  intros Hsax Hes Hin He.
  destruct root as [s0|s0|name attrs children]; try discriminate.
  unfold Sitemap.entries in Hes.
  destruct (String.eqb name "urlset") eqn:En; [|discriminate].
  injection Hes as <-.
  unfold parseSitemapXml. rewrite try_on_text, Hsax, En.
  destruct (JsString.trim xmlContent); [eexists; reflexivity|].
  destruct (Sitemap.elems_named "url" children) as [|e0 rest] eqn:Ees;
    [destruct Hin|].
  assert (Hnone : Reading.first_locs (e0 :: rest) = None).
  { clear Ees. induction (e0 :: rest) as [|x xs IH]; [destruct Hin|].
    simpl. destruct Hin as [->|Hin].
    - rewrite He. reflexivity.
    - rewrite (IH Hin). destruct (Reading.first_loc x); reflexivity. }
  rewrite Hnone. eexists. reflexivity.
Qed.


(** X5: wherever in the document an entry stands whose first [loc] element
    carries an attribute, the value [parseSitemapXml] returns at that
    entry's position is not a string: xml2js makes an object of such an
    element. *)
Theorem parseSitemapXml_loc_with_attribute xmlContent attrs children
        es1 uattrs before a lattrs lchildren after es2 vs :
  sax xmlContent = Ok (XElem "urlset" attrs children) ->
  Sitemap.elems_named "url" children =
    (es1 ++ XElem "url" uattrs
              (before ++ XElem "loc" (a :: lattrs) lchildren :: after)
         :: es2)%list ->
  Sitemap.elems_named "loc" before = [] ->
  fst (parseSitemapXml sax (JStr xmlContent)) = Some vs ->
  exists v,
    nth_error vs (length es1) = Some v /\ Reading.is_string v = false.
Proof.
  intros Hsax Hes Hbefore Hvs.
  destruct (parse_some_tree (JStr xmlContent) vs Hvs)
    as (text & attrs' & children' & Ht & Hs & _ & Hl).
  cbn in Ht. injection Ht as <-.
  rewrite Hsax in Hs. injection Hs as <- <-.
  rewrite Hes in Hl.
  destruct (first_locs_app _ _ _ Hl) as (vs1 & vs2 & H1 & H2 & ->).
  cbn [Reading.first_locs Reading.first_loc] in H2.
  unfold Sitemap.elems_named at 1 in H2. rewrite filter_app in H2.
  fold (Sitemap.elems_named "loc" before) in H2. rewrite Hbefore in H2.
  cbn [app filter Sitemap.is_elem_named] in H2.
  change (String.eqb "loc" "loc") with true in H2. cbv iota in H2.
  destruct (Reading.first_locs es2) as [vs3|]; [|discriminate].
  injection H2 as <-.
  exists (Xml2js.convert (XElem "loc" (a :: lattrs) lchildren)).
  split; [|apply convert_with_attribute].
  rewrite nth_error_app2; rewrite <- (first_locs_length es1 vs1 H1);
    [|apply le_n].
  rewrite Nat.sub_diag. reflexivity.
Qed.

(** X20: a text of whitespace characters only, Unicode ones included, is no
    document for xml2js, which resolves to [null]; [parseSitemapXml] then
    fails on reading [urlset] off it and returns [null], whatever the
    tokenizer would say. *)
Theorem parseSitemapXml_blank xmlContent :
  Reading.spaces xmlContent ->
  parseSitemapXml sax (JStr xmlContent) =
  (None, [Stderr ("Error parsing sitemap.xml content: "
                  ++ "Cannot read properties of null (reading 'urlset')")]).
Proof.
  intro Hb. apply trim_empty in Hb.
  unfold parseSitemapXml. rewrite try_on_text, Hb. reflexivity.
Qed.


End SitemapParserFacts.

(** *** The parser on concrete documents *)

(** A sitemap of two entries. *)
Lemma parseSitemapXml_urls_in_order_witness :
  parseSitemapXml Examples.sax (JStr Examples.sitemap_two) =
    (Some [JStr "https://a.test/"; JStr "https://a.test/b"], []) /\
  length [JStr "https://a.test/"; JStr "https://a.test/b"] = 2.
Proof.
  apply (parseSitemapXml_urls_in_order Examples.sax Examples.sitemap_two
           (XElem "urlset" [] [Examples.entry "https://a.test/";
                               Examples.entry "https://a.test/b"])
           [Examples.entry "https://a.test/"; Examples.entry "https://a.test/b"]
           ["https://a.test/"; "https://a.test/b"]).
  - vm_compute. discriminate.
  - reflexivity.
  - reflexivity.
  - reflexivity.
  - reflexivity.
  - discriminate.
Defined.

(** The empty [urlset]. *)
Lemma parseSitemapXml_empty_urlset_witness :
  exists message,
    parseSitemapXml Examples.sax (JStr Examples.sitemap_empty) =
    (None, [Stderr ("Error parsing sitemap.xml content: " ++ message)]).
Proof.
  apply (parseSitemapXml_empty_urlset Examples.sax Examples.sitemap_empty [] []).
  - reflexivity.
  - reflexivity.
Defined.

(** C1 as stated fails on [<urlset></urlset>]: the parser returns [null],
    not the empty array. *)
Lemma parseSitemapXml_empty_urlset_counterexample :
  Examples.sax Examples.sitemap_empty = Ok (XElem "urlset" [] []) /\
  fst (parseSitemapXml Examples.sax (JStr Examples.sitemap_empty)) = None /\
  fst (parseSitemapXml Examples.sax (JStr Examples.sitemap_empty)) <> Some [].
Proof.
  split; [reflexivity|]. split; [reflexivity | discriminate].
Qed.

(** C3 as stated fails for N = 0: the document is a valid sitemap with no
    entry, and the parser returns [null] instead of the 0 URLs. *)
Lemma parseSitemapXml_zero_entries_counterexample :
  Examples.sax Examples.sitemap_empty_ns =
    Ok (XElem "urlset"
              [("xmlns", "http://www.sitemaps.org/schemas/sitemap/0.9")]
              [XText " "]) /\
  Xml2js.plain (XElem "urlset"
                      [("xmlns", "http://www.sitemaps.org/schemas/sitemap/0.9")]
                      [XText " "]) = true /\
  Sitemap.urls (XElem "urlset"
                      [("xmlns", "http://www.sitemaps.org/schemas/sitemap/0.9")]
                      [XText " "]) = Some [] /\
  fst (parseSitemapXml Examples.sax (JStr Examples.sitemap_empty_ns)) = None /\
  fst (parseSitemapXml Examples.sax (JStr Examples.sitemap_empty_ns))
  <> Some (List.map JStr []).
Proof.
  repeat split; discriminate.
Qed.



(** The second entry has a [lastmod] and no [loc]. *)
Lemma parseSitemapXml_entry_without_loc_witness :
  exists message,
    parseSitemapXml Examples.sax (JStr Examples.sitemap_no_loc) =
    (None, [Stderr ("Error parsing sitemap.xml content: " ++ message)]).
Proof.
  apply (parseSitemapXml_entry_without_loc Examples.sax
           Examples.sitemap_no_loc Examples.no_loc_root
           [Examples.entry "https://a.test/";
            XElem "url" [] [XElem "lastmod" [] [XText "2024-01-01"]]]
           (XElem "url" [] [XElem "lastmod" [] [XText "2024-01-01"]])).
  - reflexivity.
  - reflexivity.
  - right. left. reflexivity.
  - reflexivity.
Defined.


(** The second of two entries has a [loc] with an [hreflang] attribute:
    the second value returned is an object. *)
Lemma parseSitemapXml_loc_with_attribute_witness :
  exists v,
    nth_error [JStr Examples.url_a;
               JObj [("_", JStr Examples.url_b);
                     ("$", JObj [("hreflang", JStr "en")])]] 1 = Some v /\
    Reading.is_string v = false.
Proof.
  apply (parseSitemapXml_loc_with_attribute Examples.sax
           Examples.sitemap_loc_attr []
           [Examples.entry Examples.url_a;
            XElem "url" [] [XElem "loc" [("hreflang", "en")] [XText Examples.url_b]]]
           [Examples.entry Examples.url_a] [] [] ("hreflang", "en") []
           [XText Examples.url_b] [] []).
  - reflexivity.
  - reflexivity.
  - reflexivity.
  - reflexivity.
Defined.

(** A body of a space, a no-break space and a line feed. *)
Lemma parseSitemapXml_blank_witness :
  parseSitemapXml Examples.sax (JStr Examples.sitemap_blank) =
  (None, [Stderr ("Error parsing sitemap.xml content: "
                  ++ "Cannot read properties of null (reading 'urlset')")]).
Proof.
  apply (parseSitemapXml_blank Examples.sax Examples.sitemap_blank).
  apply (Reading.spaces_cons " " (Examples.nbsp ++ Examples.nl));
    [vm_compute; tauto|].
  apply (Reading.spaces_cons Examples.nbsp Examples.nl);
    [vm_compute; tauto|].
  apply (Reading.spaces_cons Examples.nl "");
    [vm_compute; tauto|].
  apply Reading.spaces_nil.
Defined.


(** ** Reading traces *)

Section TraceFacts.


Lemma files_app e1 e2 :
  Trace.files (e1 ++ e2) = (Trace.files e1 ++ Trace.files e2)%list.
Proof.
  induction e1 as [|e rest IH]; simpl; [reflexivity|].
  destruct e; simpl; rewrite IH; reflexivity.
Qed.

Lemma stdout_app e1 e2 :
  Trace.stdout (e1 ++ e2) = (Trace.stdout e1 ++ Trace.stdout e2)%list.
Proof.
  induction e1 as [|e rest IH]; simpl; [reflexivity|].
  destruct e; simpl; rewrite IH; reflexivity.
Qed.


Lemma mkdirs_app e1 e2 :
  Reading.mkdirs (e1 ++ e2) = (Reading.mkdirs e1 ++ Reading.mkdirs e2)%list.
Proof.
  induction e1 as [|e rest IH]; simpl; [reflexivity|].
  destruct e; simpl; rewrite IH; reflexivity.
Qed.

End TraceFacts.

(** ** The page loop and the driver *)

Section ScriptFacts.
Variable Net : Type.
Variable axios_get : jsval -> Net -> response * Net.
Variable sax : string -> result xml.
Variable cheerio_load : jsval -> result (list node).
Variable path_join : string -> string -> string.

Local Abbreviation getPageTitle' := (getPageTitle Net axios_get cheerio_load).
Local Abbreviation getPageTitle_try' := (getPageTitle_try cheerio_load).
Local Abbreviation processUrls_loop' := (processUrls_loop Net axios_get cheerio_load).
Local Abbreviation processUrls' := (processUrls Net axios_get cheerio_load).
Local Abbreviation fetchSitemapXml' := (fetchSitemapXml Net axios_get).
Local Abbreviation main' := (main Net axios_get sax cheerio_load path_join).
Local Abbreviation run' := (run Net axios_get sax cheerio_load path_join).
Local Abbreviation answers' := (answers Net axios_get).
Local Abbreviation net_after' := (net_after Net axios_get).
Local Abbreviation page_title' := (page_title cheerio_load).
Local Abbreviation extracted' := (extracted cheerio_load).
Local Abbreviation row_of' := (row_of cheerio_load).
Local Abbreviation record_of' := (record_of cheerio_load).
Local Abbreviation page_events' := (page_events cheerio_load).
Local Abbreviation reaches_pages' := (reaches_pages Net axios_get sax).
Local Abbreviation export' := (export path_join).
Local Abbreviation outputPath' := (outputPath path_join).
Local Abbreviation outputDir' := (outputDir path_join).

(** One call of [getPageTitle], read off the network's answer. *)
Lemma getPageTitle_run u n :
  getPageTitle' u n =
  (page_title' (u, fst (axios_get u n)),
   page_events' (u, fst (axios_get u n)),
   snd (axios_get u n)).
Proof.
  unfold getPageTitle, bind, get, page_title, page_events.
  destruct (axios_get u n) as [r n1]. cbn [fst snd].
  destruct (getPageTitle_try' r); reflexivity.
Qed.

(** The guard [if (pageTitle)] lets through the titles that are not the
    empty string. *)
Lemma truthy_extracted a : truthy (page_title' a) = extracted' a.
Proof.
  unfold extracted. destruct (page_title' a) as [t|]; [|reflexivity].
  apply nonempty_eqb.
Qed.

Lemma extracted_fetched a : extracted' a = true -> fetched a = true.
Proof.
  unfold extracted, page_title, fetched.
  destruct (snd a); [reflexivity | discriminate].
Qed.

Lemma filter_fetched_extracted ans :
  filter (fun a => fetched a && extracted' a) ans = filter extracted' ans.
Proof.
  apply filter_ext. intro a.
  destruct (extracted' a) eqn:E; [|apply andb_false_r].
  rewrite (extracted_fetched a E). reflexivity.
Qed.

(** The loop of [processUrls]: the records pushed are those of the answers
    that carry a non-empty title, in order; every URL is requested. *)
Lemma processUrls_loop_run urls : forall titles n,
  processUrls_loop' urls titles n =
  ((titles ++ List.map record_of' (filter extracted' (answers' urls n)))%list,
   flat_map page_events' (answers' urls n),
   net_after' urls n).
Proof.
  induction urls as [|u rest IH]; intros titles n.
  - simpl. unfold ret. rewrite app_nil_r. reflexivity.
  - cbn [processUrls_loop answers net_after].
    unfold bind at 1. rewrite getPageTitle_run.
    destruct (axios_get u n) as [r n1]. cbn [fst snd].
    rewrite truthy_extracted. cbn [filter flat_map].
    destruct (extracted' (u, r)) eqn:E; rewrite IH.
    + cbn [List.map]. rewrite <- app_assoc. reflexivity.
    + reflexivity.
Qed.

Lemma answers_urls urls : forall n, List.map fst (answers' urls n) = urls.
Proof.
  induction urls as [|u rest IH]; intro n; simpl; [reflexivity|].
  destruct (axios_get u n) as [r n1]. simpl. rewrite IH. reflexivity.
Qed.

Lemma answers_length urls n : length (answers' urls n) = length urls.
Proof.
  rewrite <- (answers_urls urls n) at 2. rewrite length_map. reflexivity.
Qed.


Lemma quiet_page_events ans :
  Trace.files (flat_map page_events' ans) = [] /\
  Trace.stdout (flat_map page_events' ans) = [] /\
  Reading.mkdirs (flat_map page_events' ans) = [].
Proof.
  induction ans as [|[u r] rest (IH1 & IH2 & IH3)]; [repeat split|].
  cbn [flat_map]. rewrite files_app, stdout_app, mkdirs_app, IH1, IH2, IH3.
  unfold page_events. cbn [fst snd].
  destruct (getPageTitle_try' r); repeat split.
Qed.

Lemma files_page_events ans : Trace.files (flat_map page_events' ans) = [].
Proof. apply quiet_page_events. Qed.

(** A run that reaches the page loop: the sitemap request, the page
    requests, then the export stage with the records of the loop. *)
Lemma run_reaches_export env n sitemapUrl xml n1 urls :
  reaches_pages' env n sitemapUrl xml n1 urls ->
  run' env n =
  (Request (JStr sitemapUrl)
   :: flat_map page_events' (answers' urls n1)
   ++ export' env (List.map record_of' (filter extracted' (answers' urls n1))))%list.
Proof.
  intros (Harg & Hurl & Hget & Hxml & Hparse).
  unfold run, main.
  rewrite Harg. cbn [truthy string_of]. rewrite Hurl. cbn [negb].
  unfold bind at 1, fetchSitemapXml, bind at 1, get.
  rewrite Hget. unfold ret at 1.
  rewrite Hxml. cbn [negb].
  unfold parseSitemapXml in *.
  destruct (parseSitemapXml_try sax xml) as [urlArray|message];
    cbn [fst] in Hparse; [|discriminate].
  injection Hparse as ->.
  unfold bind, emit_all, processUrls.
  rewrite processUrls_loop_run. reflexivity.
Qed.

Lemma files_export env titles :
  Trace.files (export' env titles) = [] \/
  Trace.files (export' env titles) = [(outputPath' env, Csv.titles, Csv.rows titles)].
Proof.
  unfold export, writeRecords, fatal.
  destruct (output_dir_exists env), (mkdir_error env), (write_error env);
    simpl; auto.
Qed.


Lemma files_run env n sitemapUrl xml n1 urls :
  reaches_pages' env n sitemapUrl xml n1 urls ->
  Trace.files (run' env n) =
  Trace.files (export' env (List.map record_of' (filter extracted' (answers' urls n1)))).
Proof.
  intro H. rewrite (run_reaches_export _ _ _ _ _ _ H).
  cbn [Trace.files]. rewrite files_app, files_page_events. reflexivity.
Qed.

Lemma requests_export env titles : Trace.requests (export' env titles) = [].
Proof.
  unfold export, writeRecords, fatal.
  destruct (output_dir_exists env), (mkdir_error env), (write_error env);
    reflexivity.
Qed.

(** The rows the writer makes of the loop's records: title first, URL
    second. *)
Lemma rows_of_records ans :
  Csv.rows (List.map record_of' ans) = List.map row_of' ans.
Proof.
  unfold Csv.rows. rewrite map_map. reflexivity.
Qed.

(** The one file a run can write, with the rows of the answers that carry
    a title. *)
Lemma file_of_run env n sitemapUrl xml n1 urls path header rows :
  reaches_pages' env n sitemapUrl xml n1 urls ->
  In (path, header, rows) (Trace.files (run' env n)) ->
  header = Csv.titles /\
  rows = List.map row_of' (filter extracted' (answers' urls n1)).
Proof.
  intros Hrun Hin.
  rewrite (files_run _ _ _ _ _ _ Hrun) in Hin.
  destruct (files_export env
              (List.map record_of' (filter extracted' (answers' urls n1))))
    as [E|E]; rewrite E in Hin; [destruct Hin|].
  destruct Hin as [Hin|[]].
  injection Hin as _ <- <-.
  split; [reflexivity | apply rows_of_records].
Qed.

(** The two ways the driver's first check after the fetch stops the run. *)
Lemma run_sitemap_rejected env n sitemapUrl message n1 :
  argv2 env = Some sitemapUrl ->
  JsString.nonempty sitemapUrl = true ->
  axios_get (JStr sitemapUrl) n = (Rejected message, n1) ->
  run' env n =
    [Request (JStr sitemapUrl);
     Stderr ("Error fetching sitemap.xml from " ++ sitemapUrl ++ ": " ++ message);
     Stderr "Could not fetch sitemap.xml content from the provided URL."].
Proof.
  intros Harg Hurl Hget.
  unfold run, main.
  rewrite Harg. cbn [truthy string_of]. rewrite Hurl. cbn [negb].
  unfold bind at 1, fetchSitemapXml, bind at 1, get.
  rewrite Hget. reflexivity.
Qed.

Lemma run_sitemap_falsy env n sitemapUrl data n1 :
  argv2 env = Some sitemapUrl ->
  JsString.nonempty sitemapUrl = true ->
  axios_get (JStr sitemapUrl) n = (Data data, n1) ->
  Js.truthy data = false ->
  run' env n =
    [Request (JStr sitemapUrl);
     Stderr "Could not fetch sitemap.xml content from the provided URL."].
Proof.
  intros Harg Hurl Hget Hfalsy.
  unfold run, main.
  rewrite Harg. cbn [truthy string_of]. rewrite Hurl. cbn [negb].
  unfold bind at 1, fetchSitemapXml, bind at 1, get.
  rewrite Hget. unfold ret at 1. rewrite Hfalsy. reflexivity.
Qed.

(** Every run is a stretch of requests and error lines, followed by the
    export stage or by nothing. *)
Lemma run_split env n :
  exists pre tail,
    run' env n = (pre ++ tail)%list /\
    Trace.files pre = [] /\ Trace.stdout pre = [] /\ Reading.mkdirs pre = [] /\
    (tail = [] \/ exists titles, tail = export' env titles).
Proof.
  unfold run, main.
  destruct (truthy (argv2 env)).
  2:{ eexists; exists [].
      split; [cbn; symmetry; apply app_nil_r|]. repeat split; auto. }
  cbn [negb]. unfold bind at 1, fetchSitemapXml, bind at 1, get.
  destruct (axios_get (JStr (string_of (argv2 env))) n) as [[data|message] n1].
  2:{ eexists; exists [].
      split; [cbn; symmetry; apply app_nil_r|]. repeat split; auto. }
  unfold ret at 1.
  destruct (Js.truthy data).
  2:{ eexists; exists [].
      split; [cbn; symmetry; apply app_nil_r|]. repeat split; auto. }
  cbn [negb]. unfold parseSitemapXml.
  destruct (parseSitemapXml_try sax data) as [urls|message].
  2:{ eexists; exists [].
      split; [cbn; symmetry; apply app_nil_r|]. repeat split; auto. }
  unfold bind, emit_all, processUrls. rewrite processUrls_loop_run.
  exists (Request (JStr (string_of (argv2 env)))
          :: flat_map page_events' (answers' urls n1)).
  eexists. split; [reflexivity|].
  destruct (quiet_page_events (answers' urls n1)) as (Q0 & Q1 & Q2).
  cbn [Trace.files Trace.stdout Reading.mkdirs app].
  repeat split; try assumption.
  right. eexists. reflexivity.
Qed.

(** What the export stage leaves, by the state of the file system. *)
Lemma export_cases env titles :
  (Trace.files (export' env titles) = [] /\
   Trace.stdout (export' env titles) = []) \/
  (Trace.files (export' env titles) =
     [(outputPath' env, Csv.titles, Csv.rows titles)] /\
   Trace.stdout (export' env titles) =
     ["Page titles extracted and saved to " ++ outputPath' env]).
Proof.
  unfold export, writeRecords, fatal.
  destruct (output_dir_exists env), (mkdir_error env), (write_error env);
    simpl; auto.
Qed.

Lemma export_mkdirs env titles :
  Reading.mkdirs (export' env titles) =
  if output_dir_exists env then []
  else match mkdir_error env with
       | None => [outputDir' env]
       | Some _ => []
       end.
Proof.
  unfold export, writeRecords, fatal.
  destruct (output_dir_exists env), (mkdir_error env), (write_error env);
    reflexivity.
Qed.

(** *** The claims *)

(** C2: in a run that reaches the export stage, the CSV output has one row
    for each sitemap URL whose page fetch succeeded and whose title
    extraction succeeded (a title that is not the empty string came out);
    that is at most the number of URLs of the sitemap, and no row has an
    empty title. *)
Theorem csv_row_count env n sitemapUrl xml n1 urls path header rows :
  reaches_pages' env n sitemapUrl xml n1 urls ->
  In (path, header, rows) (Trace.files (run' env n)) ->
  length rows =
    length (filter (fun a => fetched a && extracted' a) (answers' urls n1)) /\
  length rows <= length urls /\
  Forall (fun row => exists t u, row = [JStr t; u] /\ t <> "") rows.
Proof.
  intros Hrun Hin.
  destruct (file_of_run _ _ _ _ _ _ _ _ _ Hrun Hin) as [_ ->].
  rewrite filter_fetched_extracted, length_map.
  split; [reflexivity|]. split.
  - rewrite <- (answers_length urls n1). apply filter_length_le.
  - apply Forall_forall. intros row Hrow.
    apply in_map_iff in Hrow as (a & <- & Ha).
    apply filter_In in Ha as [_ Ht].
    exists (string_of (page_title' a)), (fst a). split; [reflexivity|].
    unfold extracted in Ht.
    destruct (page_title' a) as [t|]; [|discriminate].
    cbn [string_of]. intros ->. discriminate.
Qed.

(** C8: the CSV output has the header row [Page Title,URL], the title
    column first, and its data rows are the rows of the sitemap's entries
    in the order of the sitemap, without those of the entries whose page
    fetch failed or whose title extraction gave no title or the empty
    one. *)
Theorem csv_header_and_row_order env n sitemapUrl xml n1 urls path header rows :
  reaches_pages' env n sitemapUrl xml n1 urls ->
  In (path, header, rows) (Trace.files (run' env n)) ->
  header = ["Page Title"; "URL"] /\
  String.concat "," header = "Page Title,URL" /\
  rows = List.map row_of'
           (filter (fun a => fetched a && extracted' a) (answers' urls n1)) /\
  List.map fst (answers' urls n1) = urls.
Proof.
  intros Hrun Hin.
  destruct (file_of_run _ _ _ _ _ _ _ _ _ Hrun Hin) as [-> ->].
  rewrite filter_fetched_extracted.
  repeat split; try reflexivity. apply answers_urls.
Qed.


(** C6: when the fetch of the sitemap URL fails, the run stops there: the
    sitemap request is the only request, no CSV file is written, and the
    failure is reported on standard error. *)
Theorem sitemap_fetch_failure_aborts env n sitemapUrl message n1 :
  argv2 env = Some sitemapUrl ->
  JsString.nonempty sitemapUrl = true ->
  axios_get (JStr sitemapUrl) n = (Rejected message, n1) ->
  run' env n =
    [Request (JStr sitemapUrl);
     Stderr ("Error fetching sitemap.xml from " ++ sitemapUrl ++ ": " ++ message);
     Stderr "Could not fetch sitemap.xml content from the provided URL."] /\
  Trace.requests (run' env n) = [JStr sitemapUrl] /\
  Trace.files (run' env n) = [] /\
  Trace.stdout (run' env n) = [].
Proof.
  intros Harg Hurl Hget.
  rewrite (run_sitemap_rejected env n sitemapUrl message n1 Harg Hurl Hget).
  repeat split; reflexivity.
Qed.

(** C9: without a command-line argument the run prints one error line and
    does nothing else: no request is sent, neither for the sitemap nor for
    a page, no file is written, and the network is left as it was. *)
Theorem no_argument_no_effects env n :
  argv2 env = None ->
  run' env n =
    [Stderr "Please provide a sitemap.xml URL as a command-line argument."] /\
  Trace.requests (run' env n) = [] /\
  Trace.files (run' env n) = [] /\
  snd (main' env n) = n.
Proof.
  intro Harg. unfold run, main. rewrite Harg.
  repeat split; reflexivity.
Qed.

(** C10, as the code has it: when the GET of the sitemap URL succeeds with
    an empty body, the driver's check takes the empty string like the
    failure value: it reports that the sitemap could not be fetched and
    stops, with no further request and no CSV file.  A run whose sitemap
    fetch fails differs from it on standard error only, by the line the
    fetcher itself logs first. *)
Theorem empty_sitemap_body_handled_as_failure env n n1 n' n1' sitemapUrl message :
  argv2 env = Some sitemapUrl ->
  JsString.nonempty sitemapUrl = true ->
  axios_get (JStr sitemapUrl) n = (Data (JStr ""), n1) ->
  axios_get (JStr sitemapUrl) n' = (Rejected message, n1') ->
  Js.truthy (JStr "") = Js.truthy JNull /\
  run' env n =
    [Request (JStr sitemapUrl);
     Stderr "Could not fetch sitemap.xml content from the provided URL."] /\
  Trace.files (run' env n) = [] /\
  Trace.requests (run' env n) = Trace.requests (run' env n') /\
  Trace.files (run' env n) = Trace.files (run' env n') /\
  Trace.stdout (run' env n) = Trace.stdout (run' env n') /\
  Trace.stderr (run' env n') =
    ("Error fetching sitemap.xml from " ++ sitemapUrl ++ ": " ++ message)
    :: Trace.stderr (run' env n).
Proof.
  intros Harg Hurl Hget Hget'.
  rewrite (run_sitemap_rejected env n' sitemapUrl message n1' Harg Hurl Hget').
  rewrite (run_sitemap_falsy env n sitemapUrl (JStr "") n1 Harg Hurl Hget eq_refl).
  repeat split; reflexivity.
Qed.

(** C4, as the code has it: for a page that is fetched but has no [title]
    element, [getPageTitle] returns the empty string, not the failure
    value, and logs nothing; the caller produces no record for that
    URL. *)
Theorem missing_title_gives_empty_string u n data dom n1 rest titles :
  axios_get u n = (Data data, n1) ->
  cheerio_load data = Ok dom ->
  Cheerio.query "title" dom = [] ->
  getPageTitle' u n = (Some "", [Request u], n1) /\
  fst (fst (processUrls_loop' (u :: rest) titles n)) =
  fst (fst (processUrls_loop' rest titles n1)).
Proof.
  intros Hget Hload Hnone.
  assert (E : getPageTitle' u n = (Some "", [Request u], n1)).
  { rewrite getPageTitle_run, Hget. cbn [fst snd].
    unfold page_title, page_events. cbn [fst snd getPageTitle_try].
    rewrite Hload. cbn [rbind]. rewrite Hnone. reflexivity. }
  split; [exact E|].
  cbn [processUrls_loop]. unfold bind at 1. rewrite E.
  cbn [truthy JsString.nonempty].
  destruct (processUrls_loop' rest titles n1) as [[v evs] n2]. reflexivity.
Qed.

(** *** Further properties of the page loop *)

(** X6: for a page that is fetched and loaded, [getPageTitle] logs nothing
    and returns the combined title text with its leading and trailing
    whitespace removed and nothing else changed: the text is a run of
    whitespace characters, the title, and a run of whitespace characters,
    and the title neither starts nor ends with a whitespace character, be
    it an ASCII one or a Unicode one such as U+00A0. *)
Theorem getPageTitle_trimmed u n data dom n1 :
  axios_get u n = (Data data, n1) ->
  cheerio_load data = Ok dom ->
  exists title a b,
    getPageTitle' u n = (Some title, [Request u], n1) /\
    Cheerio.text (Cheerio.query "title" dom) = a ++ title ++ b /\
    Reading.spaces a /\ Reading.spaces b /\
    ~ Reading.starts_with_space title /\
    ~ Reading.ends_with_space title.
Proof.
  intros Hget Hload.
  destruct (trim_split (Cheerio.text (Cheerio.query "title" dom)))
    as (a & b & Hs & Ha & Hb & Hst & Hen).
  exists (JsString.trim (Cheerio.text (Cheerio.query "title" dom))), a, b.
  split; [|repeat split; assumption].
  rewrite getPageTitle_run, Hget. cbn [fst snd].
  unfold page_title, page_events. cbn [fst snd getPageTitle_try].
  rewrite Hload. reflexivity.
Qed.

(** X7: a page that is fetched and loaded yields a record in [processUrls]
    exactly when its title text is not made of whitespace characters only;
    a title of whitespace, Unicode whitespace included, is dropped like a
    missing one, without a log line, and a record holds the trimmed
    title. *)
Theorem processUrls_record_iff_title_not_blank u n data dom n1 :
  axios_get u n = (Data data, n1) ->
  cheerio_load data = Ok dom ->
  (Reading.spaces (Cheerio.text (Cheerio.query "title" dom)) ->
   processUrls' [u] n = ([], [Request u], n1)) /\
  (~ Reading.spaces (Cheerio.text (Cheerio.query "title" dom)) ->
   processUrls' [u] n =
   ([mkTitle u (JsString.trim (Cheerio.text (Cheerio.query "title" dom)))],
    [Request u], n1)).
Proof.
  intros Hget Hload.
  assert (E : getPageTitle' u n =
    (Some (JsString.trim (Cheerio.text (Cheerio.query "title" dom))),
     [Request u], n1)).
  { rewrite getPageTitle_run, Hget. cbn [fst snd].
    unfold page_title, page_events. cbn [fst snd getPageTitle_try].
    rewrite Hload. reflexivity. }
  unfold processUrls. cbn [processUrls_loop].
  unfold bind at 1, bind at 1. rewrite E. cbn [truthy string_of ret].
  split; intro H.
  - apply trim_empty in H. rewrite H. reflexivity.
  - destruct (JsString.trim (Cheerio.text (Cheerio.query "title" dom))) eqn:T;
      [|reflexivity].
    elim H. apply trim_empty. exact T.
Qed.


(** *** Further properties of the driver *)

(** X10: whatever the argument, the network and the file system, a run
    writes at most one CSV file, and a file it writes is at the output path
    of the run with the header [Page Title], [URL]. *)
Theorem run_writes_at_most_one_file env n :
  Trace.files (run' env n) = [] \/
  exists rows,
    Trace.files (run' env n) = [(outputPath' env, ["Page Title"; "URL"], rows)].
Proof.
  destruct (run_split env n) as (pre & tail & -> & Hf & _ & _ & Ht).
  rewrite files_app, Hf. cbn [app].
  destruct Ht as [->|[titles ->]]; [left; reflexivity|].
  destruct (export_cases env titles) as [[E _]|[E _]]; rewrite E.
  - left. reflexivity.
  - right. eexists. reflexivity.
Qed.

(** X11: the confirmation line goes to standard output exactly when the
    file has been written, and it names the path of that file; a run that
    writes no file prints nothing on standard output. *)
Theorem run_confirms_what_it_wrote env n :
  Trace.stdout (run' env n) =
  List.map (fun f => "Page titles extracted and saved to " ++ fst (fst f))
           (Trace.files (run' env n)).
Proof.
  destruct (run_split env n) as (pre & tail & -> & Hf & Hs & _ & Ht).
  rewrite files_app, stdout_app, Hf, Hs. cbn [app].
  destruct Ht as [->|[titles ->]]; [reflexivity|].
  destruct (export_cases env titles) as [[E1 E2]|[E1 E2]]; rewrite E1, E2;
    reflexivity.
Qed.

(** X12: the output directory is the only directory a run creates, at most
    once, and only when [fs.existsSync] found it missing; a run that writes
    the file into a missing directory has created it. *)
Theorem run_creates_only_missing_directory env n :
  (output_dir_exists env = true -> Reading.mkdirs (run' env n) = []) /\
  (Reading.mkdirs (run' env n) = [] \/
   Reading.mkdirs (run' env n) = [outputDir' env]) /\
  (output_dir_exists env = false -> Trace.files (run' env n) <> [] ->
   Reading.mkdirs (run' env n) = [outputDir' env]).
Proof.
  destruct (run_split env n) as (pre & tail & -> & Hf & _ & Hm & Ht).
  rewrite mkdirs_app, files_app, Hm, Hf. cbn [app].
  destruct Ht as [->|[titles ->]].
  - repeat split; auto. intros _ H. elim H. reflexivity.
  - rewrite export_mkdirs.
    split; [intros ->; reflexivity|]. split.
    + destruct (output_dir_exists env), (mkdir_error env); auto.
    + intro Hd. unfold export, fatal. rewrite Hd.
      destruct (mkdir_error env); [intro H; elim H|]; reflexivity.
Qed.

(** X13: an empty string as the argument is taken like a missing argument:
    the run prints the usage error and does nothing else. *)
Theorem empty_argument_no_effects env n :
  argv2 env = Some "" ->
  run' env n =
    [Stderr "Please provide a sitemap.xml URL as a command-line argument."] /\
  snd (main' env n) = n.
Proof.
  intro Harg. unfold run, main. rewrite Harg. split; reflexivity.
Qed.

(** X14: when the sitemap request is answered with truthy data (a
    non-empty text, or a value decoded from JSON other than [null],
    [false] and zero) and [parseSitemapXml] returns [null] for it, the run
    stops after the parser's error line and the driver's own: no page is
    requested and no file is written. *)
Theorem sitemap_parse_failure_aborts env n sitemapUrl data n1 :
  argv2 env = Some sitemapUrl ->
  JsString.nonempty sitemapUrl = true ->
  axios_get (JStr sitemapUrl) n = (Data data, n1) ->
  Js.truthy data = true ->
  fst (parseSitemapXml sax data) = None ->
  (exists message,
      run' env n =
      [Request (JStr sitemapUrl);
       Stderr ("Error parsing sitemap.xml content: " ++ message);
       Stderr "No valid URLs found in the sitemap.xml content."]) /\
  Trace.requests (run' env n) = [JStr sitemapUrl] /\
  Trace.files (run' env n) = [] /\
  Trace.stdout (run' env n) = [].
Proof.
  intros Harg Hurl Hget Hxml Hparse.
  assert (E : exists message,
      run' env n =
      [Request (JStr sitemapUrl);
       Stderr ("Error parsing sitemap.xml content: " ++ message);
       Stderr "No valid URLs found in the sitemap.xml content."]).
  { unfold run, main.
    rewrite Harg. cbn [truthy string_of]. rewrite Hurl. cbn [negb].
    unfold bind at 1, fetchSitemapXml, bind at 1, get.
    rewrite Hget. unfold ret at 1.
    rewrite Hxml. cbn [negb].
    unfold parseSitemapXml in *.
    destruct (parseSitemapXml_try sax data) as [urlArray|message];
      [discriminate|].
    exists message. reflexivity. }
  split; [exact E|].
  destruct E as [message ->]. repeat split; reflexivity.
Qed.



(** X19: in every run the network comes first and the file system last:
    the run splits into a first part that touches neither the file system
    nor standard output and a second part that sends no request, so no
    directory or file is made before the last page has been requested. *)
Theorem run_requests_before_export env n :
  exists pre tail,
    run' env n = (pre ++ tail)%list /\
    Trace.files pre = [] /\ Trace.stdout pre = [] /\ Reading.mkdirs pre = [] /\
    Trace.requests tail = [].
Proof.
  destruct (run_split env n) as (pre & tail & E & Hf & Hs & Hm & Ht).
  exists pre, tail. repeat split; try assumption.
  destruct Ht as [->|[titles ->]]; [reflexivity|].
  apply requests_export.
Qed.

End ScriptFacts.

(** *** The page loop and the driver on concrete runs *)

(** The middle page of three is missing: two rows. *)
Lemma csv_row_count_witness :
  let rows := [[JStr "Home"; JStr Examples.url_a]; [JStr "B Page"; JStr Examples.url_b]] in
  let urls := [JStr Examples.url_a; JStr Examples.url_c; JStr Examples.url_b] in
  length rows =
    length (filter (fun a => fetched a && extracted Examples.cheerio_load a)
                   (Examples.answers urls Examples.pages_middle_missing)) /\
  length rows <= length urls /\
  Forall (fun row => exists t u, row = [JStr t; u] /\ t <> "") rows.
Proof.
  apply (csv_row_count Examples.Net Examples.axios_get Examples.sax
           Examples.cheerio_load Examples.path_join
           (Examples.env (Some Examples.sitemap_url)) Examples.pages_middle_missing
           Examples.sitemap_url (JStr Examples.sitemap_three)
           Examples.pages_middle_missing
           [JStr Examples.url_a; JStr Examples.url_c; JStr Examples.url_b]
           Examples.csv_path ["Page Title"; "URL"]).
  - unfold reaches_pages. repeat split; reflexivity.
  - vm_compute. left. reflexivity.
Defined.

(** Three pages served, the title of the middle one a no-break space: the
    header, then the rows of the first and the last page in that order. *)
Lemma csv_header_and_row_order_witness :
  let urls := [JStr Examples.url_a; JStr Examples.url_c; JStr Examples.url_b] in
  let ans := Examples.answers urls Examples.pages_mixed in
  ["Page Title"; "URL"] = ["Page Title"; "URL"] /\
  String.concat "," ["Page Title"; "URL"] = "Page Title,URL" /\
  [[JStr "Home"; JStr Examples.url_a]; [JStr "B Page"; JStr Examples.url_b]] =
    List.map (row_of Examples.cheerio_load)
      (filter (fun a => fetched a && extracted Examples.cheerio_load a) ans) /\
  List.map fst ans = urls.
Proof.
  apply (csv_header_and_row_order Examples.Net Examples.axios_get Examples.sax
           Examples.cheerio_load Examples.path_join
           (Examples.env (Some Examples.sitemap_url)) Examples.pages_mixed
           Examples.sitemap_url (JStr Examples.sitemap_three) Examples.pages_mixed
           [JStr Examples.url_a; JStr Examples.url_c; JStr Examples.url_b]
           Examples.csv_path).
  - unfold reaches_pages. repeat split; reflexivity.
  - vm_compute. left. reflexivity.
Defined.


(** The sitemap answers 404. *)
Lemma sitemap_fetch_failure_aborts_witness :
  let tr := Examples.run Examples.pages_no_sitemap (Some Examples.sitemap_url) in
  tr =
    [Request (JStr Examples.sitemap_url);
     Stderr ("Error fetching sitemap.xml from " ++ Examples.sitemap_url ++ ": "
             ++ "Request failed with status code 404");
     Stderr "Could not fetch sitemap.xml content from the provided URL."] /\
  Trace.requests tr = [JStr Examples.sitemap_url] /\
  Trace.files tr = [] /\
  Trace.stdout tr = [].
Proof.
  apply (sitemap_fetch_failure_aborts Examples.Net Examples.axios_get
           Examples.sax Examples.cheerio_load Examples.path_join
           (Examples.env (Some Examples.sitemap_url)) Examples.pages_no_sitemap
           Examples.sitemap_url "Request failed with status code 404"
           Examples.pages_no_sitemap).
  - reflexivity.
  - reflexivity.
  - reflexivity.
Defined.

(** No argument, even with every page served. *)
Lemma no_argument_no_effects_witness :
  let tr := Examples.run Examples.pages_all None in
  tr = [Stderr "Please provide a sitemap.xml URL as a command-line argument."] /\
  Trace.requests tr = [] /\
  Trace.files tr = [] /\
  snd (main Examples.Net Examples.axios_get Examples.sax Examples.cheerio_load
            Examples.path_join (Examples.env None) Examples.pages_all)
  = Examples.pages_all.
Proof.
  apply (no_argument_no_effects Examples.Net Examples.axios_get Examples.sax
           Examples.cheerio_load Examples.path_join
           (Examples.env None) Examples.pages_all).
  reflexivity.
Defined.

(** An empty sitemap body next to a 404. *)
Lemma empty_sitemap_body_handled_as_failure_witness :
  let empty := Examples.run Examples.pages_empty_sitemap (Some Examples.sitemap_url) in
  let failed := Examples.run Examples.pages_no_sitemap (Some Examples.sitemap_url) in
  Js.truthy (JStr "") = Js.truthy JNull /\
  empty =
    [Request (JStr Examples.sitemap_url);
     Stderr "Could not fetch sitemap.xml content from the provided URL."] /\
  Trace.files empty = [] /\
  Trace.requests empty = Trace.requests failed /\
  Trace.files empty = Trace.files failed /\
  Trace.stdout empty = Trace.stdout failed /\
  Trace.stderr failed =
    ("Error fetching sitemap.xml from " ++ Examples.sitemap_url ++ ": "
     ++ "Request failed with status code 404")
    :: Trace.stderr empty.
Proof.
  apply (empty_sitemap_body_handled_as_failure Examples.Net Examples.axios_get
           Examples.sax Examples.cheerio_load Examples.path_join
           (Examples.env (Some Examples.sitemap_url))
           Examples.pages_empty_sitemap Examples.pages_empty_sitemap
           Examples.pages_no_sitemap Examples.pages_no_sitemap
           Examples.sitemap_url "Request failed with status code 404").
  - reflexivity.
  - reflexivity.
  - reflexivity.
  - reflexivity.
Defined.

(** C10 as stated fails: the run on an empty sitemap body and the run on a
    failed sitemap fetch are told apart on standard error, where only the
    second has the fetcher's own error line. *)
Lemma empty_sitemap_body_counterexample :
  fst (Examples.axios_get (JStr Examples.sitemap_url) Examples.pages_empty_sitemap)
    = Data (JStr "") /\
  fst (Examples.axios_get (JStr Examples.sitemap_url) Examples.pages_no_sitemap)
    = Rejected "Request failed with status code 404" /\
  Trace.stderr (Examples.run Examples.pages_empty_sitemap (Some Examples.sitemap_url))
    = ["Could not fetch sitemap.xml content from the provided URL."] /\
  Trace.stderr (Examples.run Examples.pages_no_sitemap (Some Examples.sitemap_url))
    = ["Error fetching sitemap.xml from https://a.test/sitemap.xml: Request failed with status code 404";
       "Could not fetch sitemap.xml content from the provided URL."] /\
  Trace.stderr (Examples.run Examples.pages_empty_sitemap (Some Examples.sitemap_url))
  <> Trace.stderr (Examples.run Examples.pages_no_sitemap (Some Examples.sitemap_url)).
Proof.
  repeat split. vm_compute. discriminate.
Qed.

(** A page without a title. *)
Lemma missing_title_gives_empty_string_witness :
  Examples.getPageTitle Examples.url_a Examples.pages_untitled =
    (Some "", [Request (JStr Examples.url_a)], Examples.pages_untitled) /\
  fst (fst (processUrls_loop Examples.Net Examples.axios_get Examples.cheerio_load
              [JStr Examples.url_a] [] Examples.pages_untitled)) =
  fst (fst (processUrls_loop Examples.Net Examples.axios_get Examples.cheerio_load
              [] [] Examples.pages_untitled)).
Proof.
  apply (missing_title_gives_empty_string Examples.Net Examples.axios_get
           Examples.cheerio_load (JStr Examples.url_a) Examples.pages_untitled
           (JStr Examples.page_untitled)
           (Examples.parse_html Examples.page_untitled)
           Examples.pages_untitled [] []).
  - reflexivity.
  - reflexivity.
  - reflexivity.
Defined.

(** C4 as stated fails on a page without a title: the fetch succeeds, the
    document has no [title] element, and [getPageTitle] returns a string,
    not [null], with nothing on standard error. *)
Lemma missing_title_counterexample :
  fst (Examples.axios_get (JStr Examples.url_a) Examples.pages_untitled)
    = Data (JStr Examples.page_untitled) /\
  Examples.cheerio_load (JStr Examples.page_untitled)
    = Ok (Examples.parse_html Examples.page_untitled) /\
  Cheerio.query "title" (Examples.parse_html Examples.page_untitled) = [] /\
  fst (fst (Examples.getPageTitle Examples.url_a Examples.pages_untitled)) = Some "" /\
  fst (fst (Examples.getPageTitle Examples.url_a Examples.pages_untitled)) <> None /\
  Trace.stderr (snd (fst (Examples.getPageTitle Examples.url_a Examples.pages_untitled)))
    = [].
Proof.
  repeat split. vm_compute. discriminate.
Qed.

(** C5: on a page with two [title] elements, one in the head reading
    [Home] and one inside an [svg] reading [Menu], the fetch succeeds and
    [getPageTitle] returns [HomeMenu], the texts of both, not [Home], the
    trimmed text of the first. *)
Lemma getPageTitle_two_titles :
  fst (Examples.axios_get (JStr Examples.url_a) Examples.pages_two_titles)
    = Data (JStr Examples.page_two_titles) /\
  Examples.cheerio_load (JStr Examples.page_two_titles)
    = Ok (Examples.parse_html Examples.page_two_titles) /\
  List.map Cheerio.textContent
    (Cheerio.query "title" (Examples.parse_html Examples.page_two_titles))
    = ["Home"; "Menu"] /\
  Examples.getPageTitle Examples.url_a Examples.pages_two_titles
    = (Some "HomeMenu", [Request (JStr Examples.url_a)], Examples.pages_two_titles) /\
  fst (fst (Examples.getPageTitle Examples.url_a Examples.pages_two_titles))
    <> Some (JsString.trim "Home").
Proof.
  repeat split. vm_compute. discriminate.
Qed.

(** A title padded with no-break spaces. *)
Lemma getPageTitle_trimmed_witness :
  exists title a b,
    Examples.getPageTitle Examples.url_a Examples.pages_nbsp_padded
    = (Some title, [Request (JStr Examples.url_a)], Examples.pages_nbsp_padded) /\
    Cheerio.text (Cheerio.query "title"
                    (Examples.parse_html Examples.page_nbsp_padded))
    = a ++ title ++ b /\
    Reading.spaces a /\ Reading.spaces b /\
    ~ Reading.starts_with_space title /\
    ~ Reading.ends_with_space title.
Proof.
  apply (getPageTitle_trimmed Examples.Net Examples.axios_get
           Examples.cheerio_load (JStr Examples.url_a)
           Examples.pages_nbsp_padded (JStr Examples.page_nbsp_padded)
           (Examples.parse_html Examples.page_nbsp_padded)
           Examples.pages_nbsp_padded).
  - reflexivity.
  - reflexivity.
Defined.

(** A page whose title is a no-break space and nothing else. *)
Lemma processUrls_record_iff_title_not_blank_witness :
  processUrls Examples.Net Examples.axios_get Examples.cheerio_load
              [JStr Examples.url_a] Examples.pages_nbsp_title =
  ([], [Request (JStr Examples.url_a)], Examples.pages_nbsp_title).
Proof.
  apply (processUrls_record_iff_title_not_blank Examples.Net Examples.axios_get
           Examples.cheerio_load (JStr Examples.url_a)
           Examples.pages_nbsp_title (JStr Examples.page_nbsp_title)
           (Examples.parse_html Examples.page_nbsp_title)
           Examples.pages_nbsp_title eq_refl eq_refl).
  apply (Reading.spaces_cons Examples.nbsp ""); [vm_compute; tauto|].
  apply Reading.spaces_nil.
Defined.

(** An empty string given as the argument, with every page served. *)
Lemma empty_argument_no_effects_witness :
  Examples.run Examples.pages_all (Some "") =
    [Stderr "Please provide a sitemap.xml URL as a command-line argument."] /\
  snd (main Examples.Net Examples.axios_get Examples.sax Examples.cheerio_load
            Examples.path_join (Examples.env (Some "")) Examples.pages_all)
  = Examples.pages_all.
Proof.
  apply (empty_argument_no_effects Examples.Net Examples.axios_get Examples.sax
           Examples.cheerio_load Examples.path_join
           (Examples.env (Some "")) Examples.pages_all).
  reflexivity.
Defined.

(** The sitemap URL serves a sitemap index. *)
Lemma sitemap_parse_failure_aborts_witness :
  let tr := Examples.run [(Examples.sitemap_url, JStr Examples.sitemap_index)]
                         (Some Examples.sitemap_url) in
  (exists message,
      tr = [Request (JStr Examples.sitemap_url);
            Stderr ("Error parsing sitemap.xml content: " ++ message);
            Stderr "No valid URLs found in the sitemap.xml content."]) /\
  Trace.requests tr = [JStr Examples.sitemap_url] /\
  Trace.files tr = [] /\
  Trace.stdout tr = [].
Proof.
  apply (sitemap_parse_failure_aborts Examples.Net Examples.axios_get
           Examples.sax Examples.cheerio_load Examples.path_join
           (Examples.env (Some Examples.sitemap_url))
           [(Examples.sitemap_url, JStr Examples.sitemap_index)]
           Examples.sitemap_url (JStr Examples.sitemap_index)
           [(Examples.sitemap_url, JStr Examples.sitemap_index)]).
  - reflexivity.
  - reflexivity.
  - reflexivity.
  - reflexivity.
  - reflexivity.
Defined.



(** ** The timestamp of the file name *)

Section TimestampFacts.

Lemma string_app_inj a : forall a' b b',
  String.length a = String.length a' ->
  a ++ b = a' ++ b' -> a = a' /\ b = b'.
Proof.
  induction a as [|c r IH]; intros [|c' r'] b b' Hlen H;
    try discriminate; simpl in *.
  - split; [reflexivity | exact H].
  - injection H as -> H. injection Hlen as Hlen.
    destruct (IH r' b b' Hlen H) as [-> ->]. split; reflexivity.
Qed.

(** Reading a printed number back gives the number. *)
Lemma to_nat_of_nat n : Reading.to_nat (JsString.of_nat n) = Some n.
Proof.
  unfold Reading.to_nat, JsString.of_nat.
  rewrite NilEmpty.usu. simpl. rewrite DecimalNat.Unsigned.of_to. reflexivity.
Qed.

Lemma pad2_table : forallb Reading.pad2_ok (seq 0 100) = true.
Proof. vm_compute. reflexivity. Qed.

(** Two characters, and the number can be read back. *)
Lemma pad2_spec n :
  n < 100 ->
  String.length (pad2 n) = 2 /\ Reading.to_nat (pad2 n) = Some n.
Proof.
  intro Hn.
  assert (H := proj1 (forallb_forall Reading.pad2_ok (seq 0 100)) pad2_table n).
  assert (Hin : In n (seq 0 100)) by (apply in_seq; lia).
  specialize (H Hin). unfold Reading.pad2_ok in H.
  apply andb_true_iff in H as [Hl Hr].
  apply Nat.eqb_eq in Hl. split; [exact Hl|].
  destruct (Reading.to_nat (pad2 n)) as [m|]; [|discriminate].
  apply Nat.eqb_eq in Hr. subst m. reflexivity.
Qed.

Lemma year_table : forallb Reading.year_ok (seq 1000 (9 * 1000)) = true.
Proof. vm_compute. reflexivity. Qed.

Lemma year_length y :
  1000 <= y -> y < 10 * 1000 -> String.length (JsString.of_nat y) = 4.
Proof.
  intros Hlo Hhi.
  assert (H := proj1 (forallb_forall Reading.year_ok (seq 1000 (9 * 1000))) year_table y).
  assert (Hin : In y (seq 1000 (9 * 1000))) by (apply in_seq; lia).
  apply Nat.eqb_eq. exact (H Hin).
Qed.

(** X17: for a date with a four-digit year the timestamp has the shape
    YYYYMMDD-HHmm: thirteen characters, the ninth a dash, the month counted
    from 1 and every field but the year padded to two digits. *)
Theorem timestamp_shape d :
  Reading.valid_date d ->
  String.length (timestamp d) = 13 /\
  String.get 8 (timestamp d) = Some "-"%char /\
  Reading.to_nat (String.substring 0 4 (timestamp d)) = Some (fullYear d) /\
  Reading.to_nat (String.substring 4 2 (timestamp d)) = Some (month d + 1) /\
  Reading.to_nat (String.substring 6 2 (timestamp d)) = Some (date d) /\
  Reading.to_nat (String.substring 9 2 (timestamp d)) = Some (hours d) /\
  Reading.to_nat (String.substring 11 2 (timestamp d)) = Some (minutes d).
Proof.
  intros (Hy1 & Hy2 & Hm & Hd & Hh & Hmi).
  unfold timestamp.
  destruct (pad2_spec (month d + 1)) as [Lm Rm]; [lia|].
  destruct (pad2_spec (date d)) as [Ld Rd]; [lia|].
  destruct (pad2_spec (hours d)) as [Lh Rh]; [lia|].
  destruct (pad2_spec (minutes d)) as [Lmi Rmi]; [lia|].
  assert (Ly := year_length (fullYear d) Hy1 Hy2).
  assert (Ry := to_nat_of_nat (fullYear d)).
  destruct (JsString.of_nat (fullYear d)) as [|y1 [|y2 [|y3 [|y4 [|? ?]]]]];
    try discriminate.
  destruct (pad2 (month d + 1)) as [|m1 [|m2 [|? ?]]]; try discriminate.
  destruct (pad2 (date d)) as [|d1 [|d2 [|? ?]]]; try discriminate.
  destruct (pad2 (hours d)) as [|h1 [|h2 [|? ?]]]; try discriminate.
  destruct (pad2 (minutes d)) as [|i1 [|i2 [|? ?]]]; try discriminate.
  cbn [String.append String.length String.get String.substring].
  repeat split; assumption || reflexivity.
Qed.

(** X18: on dates with a four-digit year the timestamp tells the minute:
    two dates with the same timestamp agree on year, month, day, hour and
    minute, so runs started in different minutes get different file
    names. *)
Theorem timestamp_injective d1 d2 :
  Reading.valid_date d1 ->
  Reading.valid_date d2 ->
  timestamp d1 = timestamp d2 ->
  d1 = d2.
Proof.
  intros (Hy1 & Hy2 & Hm & Hd & Hh & Hmi) (Ky1 & Ky2 & Km & Kd & Kh & Kmi) E.
  unfold timestamp in E.
  destruct (pad2_spec (month d1 + 1)) as [Lm1 Rm1]; [lia|].
  destruct (pad2_spec (month d2 + 1)) as [Lm2 Rm2]; [lia|].
  destruct (pad2_spec (date d1)) as [Ld1 Rd1]; [lia|].
  destruct (pad2_spec (date d2)) as [Ld2 Rd2]; [lia|].
  destruct (pad2_spec (hours d1)) as [Lh1 Rh1]; [lia|].
  destruct (pad2_spec (hours d2)) as [Lh2 Rh2]; [lia|].
  destruct (pad2_spec (minutes d1)) as [Li1 Ri1]; [lia|].
  destruct (pad2_spec (minutes d2)) as [Li2 Ri2]; [lia|].
  apply string_app_inj in E as [Ey E];
    [|rewrite !year_length by assumption; reflexivity].
  apply string_app_inj in E as [Em E]; [|congruence].
  apply string_app_inj in E as [Ed E]; [|congruence].
  apply string_app_inj in E as [_ E]; [|reflexivity].
  apply string_app_inj in E as [Eh Ei]; [|congruence].
  assert (Fy : fullYear d1 = fullYear d2).
  { assert (X := to_nat_of_nat (fullYear d1)). rewrite Ey, to_nat_of_nat in X.
    congruence. }
  assert (Fm : month d1 = month d2) by (rewrite Em in Rm1; assert (month d1 + 1 = month d2 + 1) by congruence; lia).
  assert (Fd : date d1 = date d2) by (rewrite Ed in Rd1; congruence).
  assert (Fh : hours d1 = hours d2) by (rewrite Eh in Rh1; congruence).
  assert (Fi : minutes d1 = minutes d2) by (rewrite Ei in Ri1; congruence).
  destruct d1, d2. simpl in *. congruence.
Qed.

End TimestampFacts.

(** The first of September 2021, five past noon. *)
Lemma timestamp_shape_witness :
  let d := mkDate 2021 8 1 12 5 in
  String.length (timestamp d) = 13 /\
  String.get 8 (timestamp d) = Some "-"%char /\
  Reading.to_nat (String.substring 0 4 (timestamp d)) = Some 2021 /\
  Reading.to_nat (String.substring 4 2 (timestamp d)) = Some 9 /\
  Reading.to_nat (String.substring 6 2 (timestamp d)) = Some 1 /\
  Reading.to_nat (String.substring 9 2 (timestamp d)) = Some 12 /\
  Reading.to_nat (String.substring 11 2 (timestamp d)) = Some 5.
Proof.
  apply (timestamp_shape (mkDate 2021 8 1 12 5)).
  unfold Reading.valid_date. simpl. lia.
Defined.

(** The same minute read twice. *)
Lemma timestamp_injective_witness :
  mkDate 2021 8 1 12 5 = mkDate 2021 8 1 12 5.
Proof.
  apply (timestamp_injective (mkDate 2021 8 1 12 5) (mkDate 2021 8 1 12 5)).
  - unfold Reading.valid_date. simpl. lia.
  - unfold Reading.valid_date. simpl. lia.
  - reflexivity.
Defined.


(** ** Worked runs *)

(** Both pages are served: two rows, in sitemap order, titles trimmed. *)
Example run_two_pages :
  Examples.run Examples.pages_all (Some Examples.sitemap_url) =
  [Request (JStr Examples.sitemap_url);
   Request (JStr Examples.url_a);
   Request (JStr Examples.url_b);
   Mkdir "/app/output";
   CsvFile Examples.csv_path ["Page Title"; "URL"]
     [[JStr "Home"; JStr Examples.url_a]; [JStr "B Page"; JStr Examples.url_b]];
   Stdout ("Page titles extracted and saved to " ++ Examples.csv_path)].
Proof. vm_compute. reflexivity. Qed.

(** The middle page of three is missing: one error line, and the rows of
    the other two pages. *)
Example run_middle_page_missing :
  Examples.run Examples.pages_middle_missing (Some Examples.sitemap_url) =
  [Request (JStr Examples.sitemap_url);
   Request (JStr Examples.url_a);
   Request (JStr Examples.url_c);
   Stderr "Error fetching page title from https://a.test/c: Request failed with status code 404";
   Request (JStr Examples.url_b);
   Mkdir "/app/output";
   CsvFile Examples.csv_path ["Page Title"; "URL"]
     [[JStr "Home"; JStr Examples.url_a]; [JStr "B Page"; JStr Examples.url_b]];
   Stdout ("Page titles extracted and saved to " ++ Examples.csv_path)].
Proof. vm_compute. reflexivity. Qed.

(** The only page is missing: the file is written with the header and no
    data row. *)
Example run_only_page_missing :
  Examples.run Examples.pages_none (Some Examples.sitemap_url) =
  [Request (JStr Examples.sitemap_url);
   Request (JStr Examples.url_a);
   Stderr "Error fetching page title from https://a.test/: Request failed with status code 404";
   Mkdir "/app/output";
   CsvFile Examples.csv_path ["Page Title"; "URL"] [];
   Stdout ("Page titles extracted and saved to " ++ Examples.csv_path)].
Proof. vm_compute. reflexivity. Qed.

(** A page whose title is empty is requested and leaves no row. *)
Example run_empty_title :
  Trace.files (Examples.run ((Examples.sitemap_url, JStr Examples.sitemap_one)
                             :: Examples.pages_empty_title)
                            (Some Examples.sitemap_url)) =
  [(Examples.csv_path, ["Page Title"; "URL"], [])].
Proof. vm_compute. reflexivity. Qed.

(** A title of a no-break space leaves no row; no-break spaces around a
    title are taken off. *)
Example run_no_break_spaces :
  Examples.run Examples.pages_mixed (Some Examples.sitemap_url) =
  [Request (JStr Examples.sitemap_url);
   Request (JStr Examples.url_a);
   Request (JStr Examples.url_c);
   Request (JStr Examples.url_b);
   Mkdir "/app/output";
   CsvFile Examples.csv_path ["Page Title"; "URL"]
     [[JStr "Home"; JStr Examples.url_a]; [JStr "B Page"; JStr Examples.url_b]];
   Stdout ("Page titles extracted and saved to " ++ Examples.csv_path)].
Proof. vm_compute. reflexivity. Qed.

(** An empty [urlset] stops the driver at its third check. *)
Example run_empty_urlset :
  Examples.run [(Examples.sitemap_url, JStr Examples.sitemap_empty)]
               (Some Examples.sitemap_url) =
  [Request (JStr Examples.sitemap_url);
   Stderr "Error parsing sitemap.xml content: Cannot read properties of undefined (reading 'map')";
   Stderr "No valid URLs found in the sitemap.xml content."].
Proof. vm_compute. reflexivity. Qed.

(** A sitemap body that reads [null] is decoded to [null] by axios, and
    the driver stops at its second check. *)
Example run_null_sitemap_body :
  Examples.run Examples.pages_null_sitemap (Some Examples.sitemap_url) =
  [Request (JStr Examples.sitemap_url);
   Stderr "Could not fetch sitemap.xml content from the provided URL."].
Proof. vm_compute. reflexivity. Qed.
